(** * procd hardware watchdog with its software extension (watchdog.c)

    The C file keeps its state in five globals ([wdt_fd], [wdt_frequency],
    [wdte_failures], [wdte_cycle] and the uloop timer [wdt_timeout]) and talks
    to the outside through libc and libubox calls.  The embedding threads one
    [world] record through a small state monad: the globals, the [WDTFD]
    environment variable, one call counter per external function and the
    chronological trace of external calls.  What the outside answers is an
    [extern] record of functions of the call index. *)

From Stdlib Require Import ZArith String Ascii Bool Lia DecimalString List.
Import ListNotations.
Local Open Scope Z_scope.

(** ** C [int] arithmetic *)

Module CInt.

Definition INT_MIN : Z := -2147483648.
Definition INT_MAX : Z := 2147483647.

(** Two's complement wrap-around of a 32-bit [int]. *)
Definition wrap (z : Z) : Z := (z + 2 ^ 31) mod 2 ^ 32 - 2 ^ 31.

Definition in_range (z : Z) : Prop := INT_MIN <= z <= INT_MAX.

End CInt.

(** ** libc pieces the file relies on *)

Module Libc.

(** <sys/wait.h> on Linux: [WTERMSIG], [WIFEXITED], [WEXITSTATUS]. *)
Definition WTERMSIG (status : Z) : Z := Z.land status 127.
Definition WIFEXITED (status : Z) : bool := WTERMSIG status =? 0.
Definition WEXITSTATUS (status : Z) : Z := Z.shiftr (Z.land status 65280) 8.

(** <fcntl.h> *)
Definition FD_CLOEXEC : Z := 1.

Definition isspace (c : ascii) : bool :=
  let n := nat_of_ascii c in
  (Nat.eqb n 32 || (Nat.leb 9 n && Nat.leb n 13))%bool.

Definition digit_of (c : ascii) : option Z :=
  let n := Z.of_nat (nat_of_ascii c) in
  if (48 <=? n) && (n <=? 57) then Some (n - 48) else None.

Fixpoint skip_spaces (s : string) : string :=
  match s with
  | String c s' => if isspace c then skip_spaces s' else s
  | EmptyString => s
  end.

Fixpoint atoi_digits (acc : Z) (s : string) : Z :=
  match s with
  | String c s' =>
      match digit_of c with
      | Some d => atoi_digits (10 * acc + d) s'
      | None => acc
      end
  | EmptyString => acc
  end.

(** [atoi]: leading white space, an optional sign, then decimal digits up to
    the first other character; the value is brought into [int]. *)
Definition atoi (s : string) : Z :=
  match skip_spaces s with
  | String "-"%char s' => CInt.wrap (- atoi_digits 0 s')
  | String "+"%char s' => CInt.wrap (atoi_digits 0 s')
  | s' => CInt.wrap (atoi_digits 0 s')
  end.

(** [snprintf(buf, size, "%d", v)]: the decimal text of [v], cut to the
    [size - 1] characters that fit before the terminating NUL. *)
Definition snprintf_d (size : nat) (v : Z) : string :=
  substring 0 (size - 1) (NilZero.string_of_int (Z.to_int v)).

End Libc.

(** ** Constants of watchdog.c *)

Definition WATCHDOG_CLIENT_RESTART_CODE : Z := 64.
Definition WDTE_FREQUENCY : Z := 12.
Definition WDTE_FAILURES_THRESHOLD : Z := 15.

(** ** The world *)

(** The four [ERROR] messages of the file. *)
Inductive message : Type :=
| MsgRestartCode
| MsgClientCode (state : Z)
| MsgWriteFailed
| MsgRestarting.

(** External calls, in the order the program makes them. *)
Inductive event : Type :=
| EvSystem
| EvWrite (fd : Z)
| EvOpen
| EvIoctlSetTimeout (fd timeout : Z)
| EvIoctlGetTimeout (fd : Z)
| EvFcntlGetFd (fd : Z)
| EvFcntlSetFd (fd flags : Z)
| EvUnsetenv
| EvTimeoutSet (msecs : Z)
| EvTimeoutCancel
| EvError (m : message).

(** What the outside answers.  Each function takes the index of the call
    among the calls of its kind; the two [ioctl] requests share one index.
    An [ioctl] answers [Some v] when it succeeds and stores [v] through its
    pointer argument, [None] when it fails and leaves the argument alone.
    [debug] is procd's debug level: [DEBUG(level, ...)] is a macro of
    procd's log.h and evaluates its arguments when [debug >= level]. *)
Record extern : Type := mkExtern {
  system_status : nat -> Z;
  write_ret : nat -> Z;
  open_ret : nat -> Z;
  ioctl_settimeout : nat -> Z -> option Z;
  ioctl_gettimeout : nat -> option Z;
  fcntl_getfd : nat -> Z;
  debug : Z
}.

Record world : Type := mkWorld {
  wdt_fd : Z;
  wdt_frequency : Z;
  wdte_failures : Z;
  wdte_cycle : Z;
  wdt_timeout_pending : bool;
  wdt_timeout_cb : bool;
  env_WDTFD : option string;
  n_system : nat;
  n_write : nat;
  n_open : nat;
  n_ioctl : nat;
  n_fcntl : nat;
  trace : list event
}.

(** The globals as the file initialises them, in a process whose environment
    holds [env] for [WDTFD]. *)
Definition initial_world (env : option string) : world :=
  {| wdt_fd := -1; wdt_frequency := 5; wdte_failures := 0; wdte_cycle := 0;
     wdt_timeout_pending := false; wdt_timeout_cb := false;
     env_WDTFD := env;
     n_system := 0; n_write := 0; n_open := 0; n_ioctl := 0; n_fcntl := 0;
     trace := [] |}.

Definition set_wdt_fd (v : Z) (w : world) : world :=
  mkWorld v (wdt_frequency w) (wdte_failures w) (wdte_cycle w)
    (wdt_timeout_pending w) (wdt_timeout_cb w) (env_WDTFD w)
    (n_system w) (n_write w) (n_open w) (n_ioctl w) (n_fcntl w) (trace w).

Definition set_wdt_frequency (v : Z) (w : world) : world :=
  mkWorld (wdt_fd w) v (wdte_failures w) (wdte_cycle w)
    (wdt_timeout_pending w) (wdt_timeout_cb w) (env_WDTFD w)
    (n_system w) (n_write w) (n_open w) (n_ioctl w) (n_fcntl w) (trace w).

Definition set_wdte_failures (v : Z) (w : world) : world :=
  mkWorld (wdt_fd w) (wdt_frequency w) v (wdte_cycle w)
    (wdt_timeout_pending w) (wdt_timeout_cb w) (env_WDTFD w)
    (n_system w) (n_write w) (n_open w) (n_ioctl w) (n_fcntl w) (trace w).

Definition set_wdte_cycle (v : Z) (w : world) : world :=
  mkWorld (wdt_fd w) (wdt_frequency w) (wdte_failures w) v
    (wdt_timeout_pending w) (wdt_timeout_cb w) (env_WDTFD w)
    (n_system w) (n_write w) (n_open w) (n_ioctl w) (n_fcntl w) (trace w).

Definition set_pending (v : bool) (w : world) : world :=
  mkWorld (wdt_fd w) (wdt_frequency w) (wdte_failures w) (wdte_cycle w)
    v (wdt_timeout_cb w) (env_WDTFD w)
    (n_system w) (n_write w) (n_open w) (n_ioctl w) (n_fcntl w) (trace w).

Definition set_cb (v : bool) (w : world) : world :=
  mkWorld (wdt_fd w) (wdt_frequency w) (wdte_failures w) (wdte_cycle w)
    (wdt_timeout_pending w) v (env_WDTFD w)
    (n_system w) (n_write w) (n_open w) (n_ioctl w) (n_fcntl w) (trace w).

Definition set_env (v : option string) (w : world) : world :=
  mkWorld (wdt_fd w) (wdt_frequency w) (wdte_failures w) (wdte_cycle w)
    (wdt_timeout_pending w) (wdt_timeout_cb w) v
    (n_system w) (n_write w) (n_open w) (n_ioctl w) (n_fcntl w) (trace w).

(** One more external call: its event goes to the end of the trace. *)
Definition emit (e : event) (w : world) : world :=
  mkWorld (wdt_fd w) (wdt_frequency w) (wdte_failures w) (wdte_cycle w)
    (wdt_timeout_pending w) (wdt_timeout_cb w) (env_WDTFD w)
    (n_system w) (n_write w) (n_open w) (n_ioctl w) (n_fcntl w)
    (trace w ++ [e]).

Definition tick_system (w : world) : world :=
  mkWorld (wdt_fd w) (wdt_frequency w) (wdte_failures w) (wdte_cycle w)
    (wdt_timeout_pending w) (wdt_timeout_cb w) (env_WDTFD w)
    (S (n_system w)) (n_write w) (n_open w) (n_ioctl w) (n_fcntl w) (trace w).

Definition tick_write (w : world) : world :=
  mkWorld (wdt_fd w) (wdt_frequency w) (wdte_failures w) (wdte_cycle w)
    (wdt_timeout_pending w) (wdt_timeout_cb w) (env_WDTFD w)
    (n_system w) (S (n_write w)) (n_open w) (n_ioctl w) (n_fcntl w) (trace w).

Definition tick_open (w : world) : world :=
  mkWorld (wdt_fd w) (wdt_frequency w) (wdte_failures w) (wdte_cycle w)
    (wdt_timeout_pending w) (wdt_timeout_cb w) (env_WDTFD w)
    (n_system w) (n_write w) (S (n_open w)) (n_ioctl w) (n_fcntl w) (trace w).

Definition tick_ioctl (w : world) : world :=
  mkWorld (wdt_fd w) (wdt_frequency w) (wdte_failures w) (wdte_cycle w)
    (wdt_timeout_pending w) (wdt_timeout_cb w) (env_WDTFD w)
    (n_system w) (n_write w) (n_open w) (S (n_ioctl w)) (n_fcntl w) (trace w).

Definition tick_fcntl (w : world) : world :=
  mkWorld (wdt_fd w) (wdt_frequency w) (wdte_failures w) (wdte_cycle w)
    (wdt_timeout_pending w) (wdt_timeout_cb w) (env_WDTFD w)
    (n_system w) (n_write w) (n_open w) (n_ioctl w) (S (n_fcntl w)) (trace w).

(** ** A state monad over the world *)

Definition M (A : Type) : Type := world -> A * world.

Definition ret {A : Type} (a : A) : M A := fun w => (a, w).

Definition bind {A B : Type} (m : M A) (k : A -> M B) : M B :=
  fun w => let (a, w') := m w in k a w'.

Definition gets {A : Type} (f : world -> A) : M A := fun w => (f w, w).

Definition modify (f : world -> world) : M unit := fun w => (tt, f w).

(** The world an action leaves, and the value it returns. *)
Definition exec {A : Type} (m : M A) (w : world) : world := snd (m w).
Definition eval {A : Type} (m : M A) (w : world) : A := fst (m w).

Declare Scope wd_scope.
Delimit Scope wd_scope with wd.
Notation "x <- m ;; k" := (bind m (fun x => k))
  (at level 61, m at next level, right associativity) : wd_scope.
Notation "m ;; k" := (bind m (fun _ => k))
  (at level 61, right associativity) : wd_scope.
Local Open Scope wd_scope.

(** ** The program *)

Section Watchdog.

Variable o : extern.

(** *** External calls *)

Definition ERROR (m : message) : M unit := modify (emit (EvError m)).

(** [system("watchdog-client")] *)
Definition system : M Z :=
  fun w => (system_status o (n_system w), tick_system (emit EvSystem w)).

(** [write(wdt_fd, "X", 1)] *)
Definition write_X : M Z :=
  fun w => (write_ret o (n_write w), tick_write (emit (EvWrite (wdt_fd w)) w)).

(** [open("/dev/watchdog", O_WRONLY)] *)
Definition open_wdt : M Z :=
  fun w => (open_ret o (n_open w), tick_open (emit EvOpen w)).

(** [ioctl(wdt_fd, WDIOC_SETTIMEOUT, &timeout)]; returns what [timeout]
    holds afterwards. *)
Definition ioctl_set (timeout : Z) : M Z :=
  fun w =>
    (match ioctl_settimeout o (n_ioctl w) timeout with
     | Some v => v
     | None => timeout
     end,
     tick_ioctl (emit (EvIoctlSetTimeout (wdt_fd w) timeout) w)).

(** [ioctl(wdt_fd, WDIOC_GETTIMEOUT, &timeout)]; returns what [timeout]
    holds afterwards. *)
Definition ioctl_get (timeout : Z) : M Z :=
  fun w =>
    (match ioctl_gettimeout o (n_ioctl w) with
     | Some v => v
     | None => timeout
     end,
     tick_ioctl (emit (EvIoctlGetTimeout (wdt_fd w)) w)).

(** [fcntl(wdt_fd, F_GETFD)] and [fcntl(wdt_fd, F_SETFD, flags)] *)
Definition fcntl_get : M Z :=
  fun w => (fcntl_getfd o (n_fcntl w), tick_fcntl (emit (EvFcntlGetFd (wdt_fd w)) w)).

Definition fcntl_set (flags : Z) : M unit :=
  fun w => (tt, emit (EvFcntlSetFd (wdt_fd w) flags) w).

Definition getenv_WDTFD : M (option string) := gets env_WDTFD.

Definition unsetenv_WDTFD : M unit :=
  modify (fun w => emit EvUnsetenv (set_env None w)).

(** libubox: cancelling takes the timer off the list, setting one puts it
    on the list (after taking it off when it was there). *)
Definition uloop_timeout_cancel : M unit :=
  modify (fun w => emit EvTimeoutCancel (set_pending false w)).

Definition uloop_timeout_set (msecs : Z) : M unit :=
  modify (fun w => emit (EvTimeoutSet msecs) (set_pending true w)).

(** *** watchdog.c *)

Definition watchdog_run_client : M Z :=
  state <- system ;;
  if state =? -1 then ret 2
  else if negb (Libc.WIFEXITED state) then ret 2
  else ret (Libc.WEXITSTATUS state).

Definition watchdog_extended : M unit :=
  modify (fun w => set_wdte_cycle (CInt.wrap (wdte_cycle w + 1)) w) ;;
  cycle <- gets wdte_cycle ;;
  if cycle >=? WDTE_FREQUENCY then
    modify (set_wdte_cycle 0) ;;
    state <- watchdog_run_client ;;
    if state =? 0 then
      modify (set_wdte_failures 0)
    else if state =? WATCHDOG_CLIENT_RESTART_CODE then
      ERROR MsgRestartCode ;;
      modify (set_wdte_failures WDTE_FAILURES_THRESHOLD)
    else
      ERROR (MsgClientCode state) ;;
      modify (fun w => set_wdte_failures (CInt.wrap (wdte_failures w + 1)) w)
  else ret tt.

Definition watchdog_ping : M unit :=
  fd <- gets wdt_fd ;;
  if fd >=? 0 then
    r <- write_X ;;
    if r <? 0 then ERROR MsgWriteFailed else ret tt
  else ret tt.

Definition watchdog_timeout_cb : M unit :=
  watchdog_extended ;;
  failures <- gets wdte_failures ;;
  if failures >=? WDTE_FAILURES_THRESHOLD then
    ERROR MsgRestarting ;;
    uloop_timeout_cancel
  else
    watchdog_ping ;;
    frequency <- gets wdt_frequency ;;
    uloop_timeout_set (CInt.wrap (frequency * 1000)).

Definition watchdog_set_stopped (val : bool) : M unit :=
  if val then uloop_timeout_cancel else watchdog_timeout_cb.

Definition watchdog_get_stopped : M bool :=
  pending <- gets wdt_timeout_pending ;;
  ret (negb pending).

Definition watchdog_timeout (timeout : Z) : M Z :=
  fd <- gets wdt_fd ;;
  if fd <? 0 then ret 0
  else
    timeout1 <- (if negb (timeout =? 0) then ioctl_set timeout else ret timeout) ;;
    timeout2 <- ioctl_get timeout1 ;;
    ret timeout2.

Definition watchdog_frequency (frequency : Z) : M Z :=
  fd <- gets wdt_fd ;;
  if fd <? 0 then ret 0
  else
    (if negb (frequency =? 0) then modify (set_wdt_frequency frequency)
     else ret tt) ;;
    gets wdt_frequency.

(** [fd_buf] has room for three bytes. *)
Definition fd_buf_size : nat := 3.

Definition watchdog_fd : M (option string) :=
  fd <- gets wdt_fd ;;
  if fd <? 0 then ret None
  else ret (Some (Libc.snprintf_d fd_buf_size fd)).

Definition watchdog_init (preinit : Z) : M unit :=
  env <- getenv_WDTFD ;;
  fd <- gets wdt_fd ;;
  if fd >=? 0 then ret tt
  else
    modify (set_cb true) ;;
    match env with
    | Some s =>
        modify (set_wdt_fd (Libc.atoi s)) ;;
        unsetenv_WDTFD
    | None =>
        r <- open_wdt ;;
        modify (set_wdt_fd r)
    end ;;
    fd' <- gets wdt_fd ;;
    if fd' <? 0 then ret tt
    else
      (if preinit =? 0 then
         flags <- fcntl_get ;;
         fcntl_set (Z.lor flags Libc.FD_CLOEXEC)
       else ret tt) ;;
      watchdog_timeout 30 ;;
      watchdog_timeout_cb ;;
      (if debug o >=? 4 then watchdog_timeout 0 ;; ret tt else ret tt).

Definition watchdog_no_cloexec : M unit :=
  fd <- gets wdt_fd ;;
  if fd <? 0 then ret tt
  else
    flags <- fcntl_get ;;
    fcntl_set (Z.land flags (Z.lnot Libc.FD_CLOEXEC)).

(** *** The event loop's side *)

(** libubox's timer expiry: a timer on the list is taken off it and its
    callback, when one is installed, is called. *)
Definition uloop_timer_expires : M unit :=
  pending <- gets wdt_timeout_pending ;;
  if pending then
    modify (set_pending false) ;;
    cb <- gets wdt_timeout_cb ;;
    if cb then watchdog_timeout_cb else ret tt
  else ret tt.

(** The operations the supervisor and the event loop drive the subsystem
    with. *)
Inductive op : Type :=
| OpInit (preinit : Z)
| OpTick
| OpSetStopped (val : bool)
| OpGetStopped
| OpTimeout (timeout : Z)
| OpFrequency (frequency : Z)
| OpPing
| OpFd
| OpNoCloexec.

Definition run_op (p : op) (w : world) : world :=
  match p with
  | OpInit preinit => exec (watchdog_init preinit) w
  | OpTick => exec uloop_timer_expires w
  | OpSetStopped val => exec (watchdog_set_stopped val) w
  | OpGetStopped => exec watchdog_get_stopped w
  | OpTimeout timeout => exec (watchdog_timeout timeout) w
  | OpFrequency frequency => exec (watchdog_frequency frequency) w
  | OpPing => exec watchdog_ping w
  | OpFd => exec watchdog_fd w
  | OpNoCloexec => exec watchdog_no_cloexec w
  end.

Fixpoint run_ops (ps : list op) (w : world) : world :=
  match ps with
  | [] => w
  | p :: ps' => run_ops ps' (run_op p w)
  end.

End Watchdog.

(** ** Vocabulary of the statements *)

(** The external calls made between two worlds of one run. *)
Definition events_since (w w' : world) : list event :=
  skipn (length (trace w)) (trace w').

Definition is_system (e : event) : bool :=
  match e with EvSystem => true | _ => false end.

Definition is_write (e : event) : bool :=
  match e with EvWrite _ => true | _ => false end.

Definition is_open (e : event) : bool :=
  match e with EvOpen => true | _ => false end.

Definition is_set_timeout (e : event) : bool :=
  match e with EvIoctlSetTimeout _ _ => true | _ => false end.

Definition is_timeout_set (e : event) : bool :=
  match e with EvTimeoutSet _ => true | _ => false end.

Definition is_ping (p : op) : bool :=
  match p with OpPing => true | _ => false end.

(** [n] calls of the tick callback in a row. *)
Definition ticks (o : extern) (n : nat) (w : world) : world :=
  Nat.iter n (exec (watchdog_timeout_cb o)) w.

(** Every resume request of the run is made while the failure counter is
    below the threshold. *)
Fixpoint guarded (o : extern) (ps : list op) (w : world) : Prop :=
  match ps with
  | [] => True
  | p :: ps' =>
      (p = OpSetStopped false -> wdte_failures w < WDTE_FAILURES_THRESHOLD) /\
      guarded o ps' (run_op o p w)
  end.

(** The operations that call the tick callback themselves, outside a timer
    expiry: a resume request, and an initialisation while no descriptor is
    held. *)
Definition starts_tick (fd : Z) (p : op) : bool :=
  match p with
  | OpSetStopped false => true
  | OpInit _ => fd <? 0
  | _ => false
  end.

(** What the counters and the timer satisfy along guarded runs. *)
Definition steady (w : world) : Prop :=
  0 <= wdte_cycle w < WDTE_FREQUENCY /\
  0 <= wdte_failures w <= WDTE_FAILURES_THRESHOLD /\
  (wdt_timeout_pending w = true -> wdte_failures w < WDTE_FAILURES_THRESHOLD) /\
  (wdte_failures w = WDTE_FAILURES_THRESHOLD ->
   wdte_cycle w = 0 \/ (wdte_cycle w = 1 /\ 0 <= wdt_fd w)).

(** *** Concrete surroundings *)

(** The wait status of a child that exited with [code]. *)
Definition exit_status (code : Z) : Z := Z.shiftl code 8.

Definition probe_always (code : Z) : nat -> Z := fun _ => exit_status code.

(** A probe that asks for a restart once and answers [code] from then on. *)
Definition probe_restart_then (code : Z) : nat -> Z :=
  fun k => match k with O => exit_status WATCHDOG_CLIENT_RESTART_CODE
                   | S _ => exit_status code end.

(** A device that opens as descriptor [fd], accepts every write and every
    timeout, and reports 30 seconds. *)
Definition extern_probe (status : nat -> Z) (fd : Z) : extern :=
  {| system_status := status;
     write_ret := fun _ => 1;
     open_ret := fun _ => fd;
     ioctl_settimeout := fun _ t => Some t;
     ioctl_gettimeout := fun _ => Some 30;
     fcntl_getfd := fun _ => 0;
     debug := 0 |}.

Definition example_world (fd failures cycle : Z) (pending : bool) : world :=
  {| wdt_fd := fd; wdt_frequency := 5; wdte_failures := failures;
     wdte_cycle := cycle; wdt_timeout_pending := pending;
     wdt_timeout_cb := true; env_WDTFD := None;
     n_system := 0; n_write := 0; n_open := 0; n_ioctl := 0; n_fcntl := 0;
     trace := [] |}.

(** *** Vocabulary of the further properties *)


Definition is_ioctl (e : event) : bool :=
  match e with EvIoctlSetTimeout _ _ | EvIoctlGetTimeout _ => true | _ => false end.

(** The three ways the [switch] of [watchdog_extended] can go, read off the
    status [system] returned. *)
Definition healthy (status : Z) : Prop :=
  status <> -1 /\ Libc.WIFEXITED status = true /\ Libc.WEXITSTATUS status = 0.

Definition restart_request (status : Z) : Prop :=
  status <> -1 /\ Libc.WIFEXITED status = true /\
  Libc.WEXITSTATUS status = WATCHDOG_CLIENT_RESTART_CODE.

Definition generic_failure (status : Z) : Prop :=
  status = -1 \/ Libc.WIFEXITED status = false \/
  (Libc.WEXITSTATUS status <> 0 /\
   Libc.WEXITSTATUS status <> WATCHDOG_CLIENT_RESTART_CODE).

(** The operations that only read or configure the handle. *)
Definition is_config (p : op) : bool :=
  match p with
  | OpGetStopped | OpTimeout _ | OpFrequency _ | OpPing | OpFd | OpNoCloexec => true
  | _ => false
  end.

Fixpoint all_digits (s : string) : bool :=
  match s with
  | EmptyString => true
  | String c s' =>
      match Libc.digit_of c with
      | Some _ => all_digits s'
      | None => false
      end
  end.

(** The new process image of a handover: fresh globals, [WDTFD] holding
    what [watchdog_fd] returned in the old image. *)
Definition handover (o : extern) (preinit : Z) (old : world) : world :=
  exec (watchdog_init o preinit) (initial_world (eval watchdog_fd old)).

(** The timer is armed only while the failure counter is below the
    threshold. *)
Definition armed_below_threshold (w : world) : Prop :=
  wdt_timeout_pending w = true -> wdte_failures w < WDTE_FAILURES_THRESHOLD.

(** A descriptor that is no watchdog device: every write and every [ioctl]
    on it fails. *)
Definition extern_no_driver (fd : Z) : extern :=
  {| system_status := probe_always 0;
     write_ret := fun _ => -1;
     open_ret := fun _ => fd;
     ioctl_settimeout := fun _ _ => None;
     ioctl_gettimeout := fun _ => None;
     fcntl_getfd := fun _ => -1;
     debug := 4 |}.

(** ** Proof tools *)

Arguments Libc.WEXITSTATUS : simpl never.
Arguments Libc.WIFEXITED : simpl never.
Arguments Libc.atoi : simpl never.
Arguments Libc.snprintf_d : simpl never.
Arguments CInt.wrap : simpl never.

Ltac wd_unfold :=
  unfold run_op, exec, eval, uloop_timer_expires, watchdog_no_cloexec,
    watchdog_init, watchdog_fd, watchdog_frequency, watchdog_timeout,
    watchdog_get_stopped, watchdog_set_stopped, watchdog_timeout_cb,
    watchdog_ping, watchdog_extended, watchdog_run_client,
    uloop_timeout_set, uloop_timeout_cancel, unsetenv_WDTFD, getenv_WDTFD,
    fcntl_set, fcntl_get, ioctl_get, ioctl_set, open_wdt, write_X, system,
    ERROR, bind, ret, gets, modify in *;
  unfold WDTE_FREQUENCY, WDTE_FAILURES_THRESHOLD,
    WATCHDOG_CLIENT_RESTART_CODE in *.

Ltac wd_case :=
  match goal with
  | |- context [if ?c then _ else _] => destruct c eqn:?
  | |- context [match ?c with Some _ => _ | None => _ end] => destruct c eqn:?
  end.

Ltac wd_run := wd_unfold; cbn; repeat (wd_case; cbn).

Lemma skipn_length_app {A : Type} (l r : list A) :
  skipn (length l) (l ++ r) = r.
Proof. induction l as [|a l IH]; cbn; auto. Qed.

Lemma events_since_intro (w w' : world) (evs : list event) :
  trace w' = trace w ++ evs -> events_since w w' = evs.
Proof. unfold events_since. intros ->. apply skipn_length_app. Qed.

Arguments events_since : simpl never.

Ltac wd_trace :=
  cbn;
  repeat (erewrite events_since_intro
            by (cbn; rewrite <- ?app_assoc;
                first [reflexivity | symmetry; apply app_nil_r]));
  cbn.

Ltac wd_finish :=
  repeat split; intros;
  repeat match goal with H : _ \/ _ |- _ => destruct H end;
  try (wd_trace; reflexivity); try lia; try congruence.

(** ** C [int] facts *)

Lemma wrap_in_range (z : Z) : CInt.in_range z -> CInt.wrap z = z.
Proof.
  unfold CInt.in_range, CInt.INT_MIN, CInt.INT_MAX, CInt.wrap. intros H.
  rewrite Z.mod_small; lia.
Qed.

Lemma wrap_small (z : Z) : -1 <= z <= 1000 -> CInt.wrap z = z.
Proof.
  intros H. apply wrap_in_range.
  unfold CInt.in_range, CInt.INT_MIN, CInt.INT_MAX. lia.
Qed.

Lemma succ_divmod_12 (n : nat) :
  (n mod 12 = 11 -> S n mod 12 = 0 /\ S n / 12 = S (n / 12))%nat /\
  (n mod 12 <> 11 -> S n mod 12 = S (n mod 12) /\ S n / 12 = n / 12)%nat.
Proof.
  pose proof (Nat.div_mod_eq n 12) as Hn.
  pose proof (Nat.mod_upper_bound n 12 ltac:(lia)) as Hb.
  split; intros H.
  - split.
    + symmetry. apply (Nat.mod_unique (S n) 12 (S (n / 12)) 0); lia.
    + symmetry. apply (Nat.div_unique (S n) 12 (S (n / 12)) 0); lia.
  - split.
    + symmetry. apply (Nat.mod_unique (S n) 12 (n / 12) (S (n mod 12))); lia.
    + symmetry. apply (Nat.div_unique (S n) 12 (n / 12) (S (n mod 12))); lia.
Qed.

(** ** The extended cycle *)

(** C1. On a cycle where the probe runs, the failure counter goes up by one
    when the probe could not be launched or did not exit normally, becomes 0
    on exit code 0, becomes [WDTE_FAILURES_THRESHOLD] on exit code 64, and
    goes up by one on every other exit code.  The increment is the C [int]
    increment, stated for a counter whose successor is an [int]. *)
Theorem extended_probe_classification (o : extern) (w : world) :
  WDTE_FREQUENCY <= CInt.wrap (wdte_cycle w + 1) ->
  CInt.in_range (wdte_failures w + 1) ->
  let status := system_status o (n_system w) in
  let w' := exec (watchdog_extended o) w in
  hd_error (events_since w w') = Some EvSystem /\
  n_system w' = S (n_system w) /\
  (status = -1 \/ Libc.WIFEXITED status = false ->
   wdte_failures w' = wdte_failures w + 1) /\
  (status <> -1 -> Libc.WIFEXITED status = true ->
   (Libc.WEXITSTATUS status = 0 -> wdte_failures w' = 0) /\
   (Libc.WEXITSTATUS status = WATCHDOG_CLIENT_RESTART_CODE ->
    wdte_failures w' = WDTE_FAILURES_THRESHOLD) /\
   (Libc.WEXITSTATUS status <> 0 ->
    Libc.WEXITSTATUS status <> WATCHDOG_CLIENT_RESTART_CODE ->
    wdte_failures w' = wdte_failures w + 1)).
Proof.
  intros Hc Hr status w'. subst status w'.
  wd_unfold. cbn.
  destruct (CInt.wrap (wdte_cycle w + 1) >=? 12) eqn:E; [|lia].
  cbn.
  destruct (system_status o (n_system w) =? -1) eqn:E1; cbn;
    [| destruct (Libc.WIFEXITED (system_status o (n_system w))) eqn:E2; cbn;
       [ destruct (Libc.WEXITSTATUS (system_status o (n_system w)) =? 0) eqn:E3; cbn;
         [| destruct (Libc.WEXITSTATUS (system_status o (n_system w)) =? 64) eqn:E4; cbn ]
       |] ];
    rewrite ?wrap_in_range by assumption; wd_finish.
Qed.

Lemma extended_probe_classification_witness :
  WDTE_FREQUENCY <= CInt.wrap (wdte_cycle (example_world 3 4 11 true) + 1) /\
  CInt.in_range (wdte_failures (example_world 3 4 11 true) + 1) /\
  wdte_failures
    (exec (watchdog_extended (extern_probe (probe_always 1) 3))
       (example_world 3 4 11 true)) = 5.
Proof.
  assert (Hc : WDTE_FREQUENCY <= CInt.wrap (wdte_cycle (example_world 3 4 11 true) + 1))
    by (vm_compute; discriminate).
  assert (Hr : CInt.in_range (wdte_failures (example_world 3 4 11 true) + 1))
    by (vm_compute; split; discriminate).
  split; [exact Hc | split; [exact Hr |]].
  destruct (extended_probe_classification (extern_probe (probe_always 1) 3)
              (example_world 3 4 11 true) Hc Hr) as (_ & _ & _ & H).
  destruct H as (_ & _ & H).
  - vm_compute. discriminate.
  - reflexivity.
  - apply H; vm_compute; discriminate.
Defined.

(** ** Ticks and the probe *)

Section Ticks.

Variable o : extern.

Lemma timeout_cb_idle (w : world) :
  0 <= wdte_cycle w < WDTE_FREQUENCY - 1 ->
  let w' := exec (watchdog_timeout_cb o) w in
  wdte_cycle w' = wdte_cycle w + 1 /\ n_system w' = n_system w /\
  wdte_failures w' = wdte_failures w /\
  filter is_system (events_since w w') = [].
Proof.
  unfold WDTE_FREQUENCY. intros H.
  pose proof (wrap_small (wdte_cycle w + 1) ltac:(lia)) as Hw.
  wd_unfold. cbn. rewrite Hw.
  destruct (wdte_cycle w + 1 >=? 12) eqn:E; [lia|]. cbn.
  repeat (wd_case; cbn); wd_finish.
Qed.

Lemma timeout_cb_probe (w : world) :
  wdte_cycle w = WDTE_FREQUENCY - 1 ->
  let w' := exec (watchdog_timeout_cb o) w in
  wdte_cycle w' = 0 /\ n_system w' = S (n_system w).
Proof.
  unfold WDTE_FREQUENCY. intros H.
  wd_unfold. cbn. rewrite H.
  change (CInt.wrap (12 - 1 + 1)) with 12. cbn.
  repeat (wd_case; cbn); wd_finish.
Qed.

Lemma ticks_S (n : nat) (w : world) :
  ticks o (S n) w = exec (watchdog_timeout_cb o) (ticks o n w).
Proof. reflexivity. Qed.

Lemma ticks_cycle_count (w : world) (n : nat) :
  wdte_cycle w = 0 ->
  wdte_cycle (ticks o n w) = Z.of_nat (n mod 12) /\
  n_system (ticks o n w) = (n_system w + n / 12)%nat.
Proof.
  intros H0. induction n as [|n [IHc IHs]].
  - cbn. rewrite H0. split; [reflexivity | lia].
  - rewrite ticks_S.
    destruct (Nat.eq_dec (n mod 12) 11) as [E|E].
    + destruct (timeout_cb_probe (ticks o n w)) as [Hc Hs].
      { rewrite IHc, E. reflexivity. }
      destruct (succ_divmod_12 n) as [[Hm Hd] _]; [exact E|].
      rewrite Hc, Hs, IHs, Hm, Hd. split; [reflexivity | lia].
    + destruct (timeout_cb_idle (ticks o n w)) as (Hc & Hs & _).
      { rewrite IHc. unfold WDTE_FREQUENCY.
        pose proof (Nat.mod_upper_bound n 12 ltac:(lia)). lia. }
      destruct (succ_divmod_12 n) as [_ [Hm Hd]]; [exact E|].
      rewrite Hc, Hs, IHs, IHc, Hm, Hd. split; [lia | reflexivity].
Qed.

Lemma timeout_cb_extends (w : world) :
  trace (exec (watchdog_timeout_cb o) w) =
  trace w ++ events_since w (exec (watchdog_timeout_cb o) w).
Proof. wd_run; wd_trace; rewrite <- ?app_assoc; reflexivity. Qed.

Lemma ticks_idle (w : world) (N : nat) :
  wdte_cycle w = 0 -> (N < 12)%nat ->
  wdte_cycle (ticks o N w) = Z.of_nat N /\
  n_system (ticks o N w) = n_system w /\
  wdte_failures (ticks o N w) = wdte_failures w /\
  exists evs, trace (ticks o N w) = trace w ++ evs /\ filter is_system evs = [].
Proof.
  intros H0. induction N as [|N IH]; intros HN.
  - cbn. rewrite H0. repeat split. exists []. rewrite app_nil_r. split; reflexivity.
  - destruct IH as (Ic & Is & If & evs & It & Ie); [lia|].
    rewrite ticks_S.
    destruct (timeout_cb_idle (ticks o N w)) as (Hc & Hs & Hf & He).
    { rewrite Ic. unfold WDTE_FREQUENCY. lia. }
    rewrite Hc, Hs, Hf, Ic, Is, If. repeat split; try lia.
    exists (evs ++ events_since (ticks o N w) (exec (watchdog_timeout_cb o) (ticks o N w))).
    rewrite timeout_cb_extends, It, app_assoc, filter_app, Ie, He. split; reflexivity.
Qed.

End Ticks.

(** C6. From [wdte_cycle = 0], fewer than [WDTE_FREQUENCY] ticks never call
    the probe and leave the failure counter alone; in general the probe has
    been called once per completed group of [WDTE_FREQUENCY] ticks, it is
    called on tick [n + 1] exactly when [n + 1] is a multiple of
    [WDTE_FREQUENCY], and that tick leaves [wdte_cycle] at 0. *)
Theorem probe_every_frequency_ticks (o : extern) (w : world) :
  wdte_cycle w = 0 ->
  (forall N : nat, (Z.of_nat N < WDTE_FREQUENCY) ->
     n_system (ticks o N w) = n_system w /\
     filter is_system (events_since w (ticks o N w)) = [] /\
     wdte_failures (ticks o N w) = wdte_failures w) /\
  (forall n : nat,
     wdte_cycle (ticks o n w) = Z.of_nat n mod WDTE_FREQUENCY /\
     n_system (ticks o n w) = (n_system w + n / Z.to_nat WDTE_FREQUENCY)%nat /\
     (Z.of_nat (S n) mod WDTE_FREQUENCY = 0 ->
      n_system (ticks o (S n) w) = S (n_system (ticks o n w)) /\
      wdte_cycle (ticks o (S n) w) = 0) /\
     (Z.of_nat (S n) mod WDTE_FREQUENCY <> 0 ->
      n_system (ticks o (S n) w) = n_system (ticks o n w) /\
      wdte_failures (ticks o (S n) w) = wdte_failures (ticks o n w))).
Proof.
  unfold WDTE_FREQUENCY. change (Z.to_nat 12) with 12%nat. intros H0. split.
  - intros N HN.
    destruct (ticks_idle o w N H0 ltac:(lia)) as (_ & Hs & Hf & evs & Ht & He).
    repeat split; try assumption.
    unfold events_since. rewrite Ht, skipn_length_app. exact He.
  - intros n.
    destruct (ticks_cycle_count o w n H0) as [Hc Hs].
    destruct (ticks_cycle_count o w (S n) H0) as [Hc' Hs'].
    assert (Em : forall k : nat, Z.of_nat k mod 12 = Z.of_nat (k mod 12)).
    { intros k. change 12 with (Z.of_nat 12). rewrite Nat2Z.inj_mod. reflexivity. }
    rewrite !Em.
    destruct (succ_divmod_12 n) as [A B].
    pose proof (Nat.mod_upper_bound n 12 ltac:(lia)) as Hb.
    repeat split; try assumption.
    + rewrite Hs', Hs.
      destruct (Nat.eq_dec (n mod 12) 11) as [E|E].
      * destruct (A E) as [_ Hd]. lia.
      * destruct (B E) as [Hm _]. lia.
    + lia.
    + rewrite Hs', Hs.
      destruct (Nat.eq_dec (n mod 12) 11) as [E|E].
      * destruct (A E) as [Hm _]. lia.
      * destruct (B E) as [_ Hd]. lia.
    + rewrite ticks_S.
      destruct (timeout_cb_idle o (ticks o n w)) as (_ & _ & Hf & _); [|exact Hf].
      rewrite Hc. unfold WDTE_FREQUENCY.
      destruct (Nat.eq_dec (n mod 12) 11) as [E|E].
      * destruct (A E) as [Hm _]. lia.
      * lia.
Qed.

Lemma probe_every_frequency_ticks_witness :
  wdte_cycle (initial_world None) = 0 /\
  n_system (ticks (extern_probe (probe_always 1) 3) 12 (initial_world None)) =
  S (n_system (ticks (extern_probe (probe_always 1) 3) 11 (initial_world None))).
Proof.
  split; [reflexivity|].
  destruct (probe_every_frequency_ticks (extern_probe (probe_always 1) 3)
              (initial_world None) eq_refl) as [_ H].
  destruct (H 11%nat) as (_ & _ & Hp & _).
  apply Hp. reflexivity.
Defined.

(** ** The public operations, one by one *)

(** C9. [watchdog_ping] leaves the descriptor, the ping interval, both
    counters, the timer and the environment as they were, whatever the write
    returns; without a descriptor it does nothing at all, with one it issues
    exactly one write to it. *)
Theorem watchdog_ping_frame (o : extern) (w : world) :
  let w' := exec (watchdog_ping o) w in
  (wdt_fd w' = wdt_fd w /\ wdt_frequency w' = wdt_frequency w /\
   wdte_cycle w' = wdte_cycle w /\ wdte_failures w' = wdte_failures w /\
   wdt_timeout_pending w' = wdt_timeout_pending w /\
   wdt_timeout_cb w' = wdt_timeout_cb w /\ env_WDTFD w' = env_WDTFD w) /\
  (wdt_fd w < 0 -> w' = w) /\
  (0 <= wdt_fd w ->
   n_write w' = S (n_write w) /\
   filter is_write (events_since w w') = [EvWrite (wdt_fd w)]).
Proof.
  wd_run; wd_finish; destruct w; reflexivity.
Qed.

Lemma watchdog_ping_frame_witness :
  0 <= wdt_fd (example_world 3 2 7 true) /\
  wdt_fd (exec (watchdog_ping (extern_probe (probe_always 0) 3))
            (example_world 3 2 7 true)) = 3 /\
  n_write (exec (watchdog_ping (extern_probe (probe_always 0) 3))
             (example_world 3 2 7 true)) = 1%nat.
Proof.
  assert (H : 0 <= wdt_fd (example_world 3 2 7 true)) by (vm_compute; discriminate).
  destruct (watchdog_ping_frame (extern_probe (probe_always 0) 3)
              (example_world 3 2 7 true)) as ((Hfd & _) & _ & Hw).
  destruct (Hw H) as [Hn _].
  split; [exact H | split; [exact Hfd | exact Hn]].
Defined.

(** C10. Without a descriptor, [watchdog_set_stopped false] still runs the
    whole tick: the extended cycle with its counters and, when due, its
    probe; no write is issued; and when the failure counter ends below the
    threshold the timer is armed, so that [watchdog_get_stopped] answers
    [false] while the descriptor is still absent. *)
Theorem set_stopped_false_when_disabled (o : extern) (w : world) :
  wdt_fd w < 0 ->
  let e := exec (watchdog_extended o) w in
  let w' := exec (watchdog_set_stopped o false) w in
  wdte_cycle w' = wdte_cycle e /\ wdte_failures w' = wdte_failures e /\
  n_system w' = n_system e /\
  (WDTE_FREQUENCY <= CInt.wrap (wdte_cycle w + 1) -> n_system w' = S (n_system w)) /\
  n_write w' = n_write w /\ filter is_write (events_since w w') = [] /\
  wdt_fd w' = wdt_fd w /\
  (wdte_failures e < WDTE_FAILURES_THRESHOLD ->
   wdt_timeout_pending w' = true /\
   eval watchdog_get_stopped w' = false /\
   events_since e w' = [EvTimeoutSet (CInt.wrap (wdt_frequency w * 1000))]).
Proof.
  intros Hfd. wd_unfold. cbn.
  destruct (wdt_fd w >=? 0) eqn:E; [lia|].
  repeat (wd_case; cbn); rewrite ?E; cbn; wd_finish.
Qed.

Lemma set_stopped_false_when_disabled_witness :
  wdt_fd (example_world (-1) 0 11 false) < 0 /\
  eval watchdog_get_stopped
    (exec (watchdog_set_stopped (extern_probe (probe_always 1) 3) false)
       (example_world (-1) 0 11 false)) = false /\
  wdte_failures
    (exec (watchdog_set_stopped (extern_probe (probe_always 1) 3) false)
       (example_world (-1) 0 11 false)) = 1.
Proof.
  assert (H : wdt_fd (example_world (-1) 0 11 false) < 0) by reflexivity.
  destruct (set_stopped_false_when_disabled (extern_probe (probe_always 1) 3)
              (example_world (-1) 0 11 false) H)
    as (_ & Hf & _ & _ & _ & _ & _ & Ha).
  split; [exact H | split].
  - apply Ha. reflexivity.
  - rewrite Hf. reflexivity.
Defined.

(** C4 does not hold as stated: with a descriptor held and the failure
    counter at the threshold, a resume request leaves the timer unarmed. *)
Lemma get_stopped_true_after_resume :
  let o := extern_probe (probe_restart_then 0) 3 in
  let w := run_ops o (OpInit 0 :: repeat OpTick 11) (initial_world None) in
  0 <= wdt_fd w /\
  eval watchdog_get_stopped (exec (watchdog_set_stopped o false) w) = true.
Proof. vm_compute. split; [discriminate | reflexivity]. Qed.

(** C4, amended. With a descriptor held, [watchdog_get_stopped] answers
    [true] right after [watchdog_set_stopped true]; right after
    [watchdog_set_stopped false] it answers [false] exactly when the failure
    counter is below the threshold once the extended cycle of that call has
    run. *)
Theorem get_stopped_after_set_stopped (o : extern) (w : world) :
  0 <= wdt_fd w ->
  eval watchdog_get_stopped (exec (watchdog_set_stopped o true) w) = true /\
  eval watchdog_get_stopped (exec (watchdog_set_stopped o false) w) =
  (wdte_failures (exec (watchdog_extended o) w) >=? WDTE_FAILURES_THRESHOLD).
Proof.
  intros Hfd. split.
  - reflexivity.
  - wd_run; wd_finish.
Qed.

Lemma get_stopped_after_set_stopped_witness :
  0 <= wdt_fd (example_world 3 14 11 true) /\
  eval watchdog_get_stopped
    (exec (watchdog_set_stopped (extern_probe (probe_always 0) 3) false)
       (example_world 3 14 11 true)) = false.
Proof.
  assert (H : 0 <= wdt_fd (example_world 3 14 11 true)) by (vm_compute; discriminate).
  split; [exact H|].
  destruct (get_stopped_after_set_stopped (extern_probe (probe_always 0) 3)
              (example_world 3 14 11 true) H) as [_ Hr].
  rewrite Hr. reflexivity.
Defined.

(** C7 does not hold as stated: a negative argument is not greater than 0,
    yet the set-timeout request is issued with it. *)
Lemma watchdog_timeout_negative_request :
  let o := extern_probe (probe_always 0) 3 in
  let w := example_world 3 0 0 true in
  0 <= wdt_fd w /\ ~ (-1 > 0) /\
  events_since w (exec (watchdog_timeout o (-1)) w) =
  [EvIoctlSetTimeout 3 (-1); EvIoctlGetTimeout 3].
Proof. vm_compute. repeat split; discriminate. Qed.

(** C7, amended. Without a descriptor [watchdog_timeout] returns 0 and does
    nothing.  With one, a set-timeout request is issued exactly when the
    argument is not 0, a get-timeout query always follows as the last call,
    and the value that query reports is returned. *)
Theorem watchdog_timeout_requests (o : extern) (w : world) (seconds : Z) :
  let w' := exec (watchdog_timeout o seconds) w in
  let r := eval (watchdog_timeout o seconds) w in
  (wdt_fd w < 0 -> r = 0 /\ w' = w) /\
  (0 <= wdt_fd w ->
   events_since w w' =
     (if seconds =? 0 then [] else [EvIoctlSetTimeout (wdt_fd w) seconds])
     ++ [EvIoctlGetTimeout (wdt_fd w)] /\
   (existsb is_set_timeout (events_since w w') = true <-> seconds <> 0) /\
   (forall v : Z,
      ioctl_gettimeout o (if seconds =? 0 then n_ioctl w else S (n_ioctl w))
        = Some v -> r = v)).
Proof.
  wd_unfold. cbn.
  destruct (wdt_fd w <? 0) eqn:E; cbn.
  - split; [intros _; split; reflexivity | intros H; lia].
  - split; [intros H; lia | intros _].
    destruct (seconds =? 0) eqn:E0; cbn.
    + wd_trace. repeat split; try discriminate; try lia.
      intros v Hv. rewrite Hv. reflexivity.
    + wd_trace. repeat split; try reflexivity; try lia.
      intros v Hv. rewrite Hv. reflexivity.
Qed.

Lemma watchdog_timeout_requests_witness :
  0 <= wdt_fd (example_world 3 0 0 true) /\
  eval (watchdog_timeout (extern_probe (probe_always 0) 3) 0)
    (example_world 3 0 0 true) = 30.
Proof.
  assert (H : 0 <= wdt_fd (example_world 3 0 0 true)) by (vm_compute; discriminate).
  split; [exact H|].
  destruct (watchdog_timeout_requests (extern_probe (probe_always 0) 3)
              (example_world 3 0 0 true) 0) as [_ Hen].
  destruct (Hen H) as (_ & _ & Hr).
  apply Hr. reflexivity.
Defined.

(** C8 does not hold as stated: a negative argument is not greater than 0,
    yet it replaces the ping interval. *)
Lemma watchdog_frequency_negative_update :
  let w := example_world 3 0 0 true in
  0 <= wdt_fd w /\ ~ (-3 > 0) /\ wdt_frequency w = 5 /\
  wdt_frequency (exec (watchdog_frequency (-3)) w) = -3 /\
  eval (watchdog_frequency (-3)) w = -3.
Proof. vm_compute. repeat split; discriminate. Qed.

(** C8, amended. Without a descriptor [watchdog_frequency] returns 0 and
    does nothing.  With one, the ping interval is replaced by the argument
    exactly when the argument is not 0, nothing else changes, and the
    interval as it then stands is returned; with 0 nothing changes at all. *)
Theorem watchdog_frequency_update (w : world) (seconds : Z) :
  let w' := exec (watchdog_frequency seconds) w in
  let r := eval (watchdog_frequency seconds) w in
  (wdt_fd w < 0 -> r = 0 /\ w' = w) /\
  (0 <= wdt_fd w ->
   w' = (if seconds =? 0 then w else set_wdt_frequency seconds w) /\
   wdt_frequency w' = (if seconds =? 0 then wdt_frequency w else seconds) /\
   r = wdt_frequency w').
Proof.
  wd_unfold. cbn.
  destruct (wdt_fd w <? 0) eqn:E; cbn.
  - split; [intros _; split; reflexivity | intros H; lia].
  - split; [intros H; lia | intros _].
    destruct (seconds =? 0) eqn:E0; cbn; repeat split; reflexivity.
Qed.

Lemma watchdog_frequency_update_witness :
  0 <= wdt_fd (example_world 3 0 0 true) /\
  eval (watchdog_frequency 7) (example_world 3 0 0 true) = 7 /\
  eval (watchdog_frequency 0) (example_world 3 0 0 true) = 5.
Proof.
  assert (H : 0 <= wdt_fd (example_world 3 0 0 true)) by (vm_compute; discriminate).
  split; [exact H|].
  destruct (watchdog_frequency_update (example_world 3 0 0 true) 7) as [_ H7].
  destruct (watchdog_frequency_update (example_world 3 0 0 true) 0) as [_ H0].
  destruct (H7 H) as (_ & _ & R7). destruct (H0 H) as (_ & _ & R0).
  split; [rewrite R7 | rewrite R0]; reflexivity.
Defined.

(** ** Runs of operations *)

Section Runs.

Variable o : extern.

Lemma run_op_cycle (p : op) (w : world) :
  0 <= wdte_cycle w < WDTE_FREQUENCY ->
  0 <= wdte_cycle (run_op o p w) < WDTE_FREQUENCY.
Proof.
  intros H. unfold WDTE_FREQUENCY in H.
  pose proof (wrap_small (wdte_cycle w + 1) ltac:(lia)) as Hw.
  destruct p; wd_unfold; cbn; rewrite ?Hw;
    repeat (wd_case; cbn; rewrite ?Hw); cbn; lia.
Qed.

Lemma run_ops_cycle (ps : list op) (w : world) :
  0 <= wdte_cycle w < WDTE_FREQUENCY ->
  0 <= wdte_cycle (run_ops o ps w) < WDTE_FREQUENCY.
Proof.
  revert w. induction ps as [|p ps IH]; intros w H; cbn.
  - exact H.
  - apply IH, run_op_cycle, H.
Qed.

Lemma run_op_steady (p : op) (w : world) :
  steady w ->
  (p = OpSetStopped false -> wdte_failures w < WDTE_FAILURES_THRESHOLD) ->
  steady (run_op o p w).
Proof.
  unfold steady, WDTE_FREQUENCY, WDTE_FAILURES_THRESHOLD.
  intros (Hc & Hf & Hp & Hz) Hg.
  pose proof (wrap_small (wdte_cycle w + 1) ltac:(lia)) as Hw.
  pose proof (wrap_small (wdte_failures w + 1) ltac:(lia)) as Hv.
  destruct p as [preinit| |val| |timeout|frequency| | |].
  - wd_unfold; cbn; rewrite ?Hw, ?Hv;
      repeat (wd_case; cbn; rewrite ?Hw, ?Hv); cbn;
      repeat split; intros; try lia; try congruence; auto.
  - wd_unfold; cbn.
    destruct (wdt_timeout_pending w) eqn:Ep; cbn;
      [specialize (Hp eq_refl)|];
      rewrite ?Hw, ?Hv;
      repeat (wd_case; cbn; rewrite ?Hw, ?Hv); cbn;
      repeat split; intros; try lia; try congruence; auto.
  - destruct val.
    + wd_unfold; cbn. repeat split; intros; try lia; try congruence.
    + specialize (Hg eq_refl).
      wd_unfold; cbn; rewrite ?Hw, ?Hv;
        repeat (wd_case; cbn; rewrite ?Hw, ?Hv); cbn;
        repeat split; intros; try lia; try congruence.
  - wd_run; repeat split; intros; try lia; auto.
  - wd_run; repeat split; intros; try lia; auto.
  - wd_run; repeat split; intros; try lia; auto.
  - wd_run; repeat split; intros; try lia; auto.
  - wd_run; repeat split; intros; try lia; auto.
  - wd_run; repeat split; intros; try lia; auto.
Qed.

Lemma run_ops_steady (ps : list op) (w : world) :
  steady w -> guarded o ps w -> steady (run_ops o ps w).
Proof.
  revert w. induction ps as [|p ps IH]; intros w Hs Hg; cbn.
  - exact Hs.
  - destruct Hg as [Hp Hg]. apply IH; [apply run_op_steady; assumption | exact Hg].
Qed.

(** An operation that does not start a tick, met with the timer unarmed:
    the timer stays unarmed, the failure counter and the descriptor stay,
    no timer is set, and a write is issued only by an explicit ping. *)
Lemma run_op_quiet (p : op) (w : world) :
  wdt_timeout_pending w = false ->
  starts_tick (wdt_fd w) p = false ->
  let w' := run_op o p w in
  wdt_timeout_pending w' = false /\
  wdte_failures w' = wdte_failures w /\
  wdte_cycle w' = wdte_cycle w /\
  wdt_fd w' = wdt_fd w /\
  trace w' = trace w ++ events_since w w' /\
  existsb is_timeout_set (events_since w w') = false /\
  length (filter is_write (events_since w w')) =
    (if is_ping p && (0 <=? wdt_fd w) then 1%nat else 0%nat).
Proof.
  intros Hp Hs.
  destruct p as [preinit| |val| |timeout|frequency| | |]; cbn in Hs.
  - wd_unfold; cbn.
    destruct (wdt_fd w >=? 0) eqn:E; [|lia]. cbn.
    wd_finish. wd_trace. symmetry. apply app_nil_r.
  - wd_unfold; cbn. rewrite Hp. cbn.
    wd_finish. wd_trace. symmetry. apply app_nil_r.
  - destruct val; [|discriminate].
    wd_unfold; cbn. wd_finish.
  - wd_unfold; cbn. wd_finish. wd_trace. symmetry. apply app_nil_r.
  - wd_run; wd_finish; wd_trace; rewrite <- ?app_assoc;
      first [reflexivity | symmetry; apply app_nil_r].
  - wd_run; wd_finish; wd_trace; rewrite <- ?app_assoc;
      first [reflexivity | symmetry; apply app_nil_r].
  - wd_unfold; cbn.
    destruct (wdt_fd w >=? 0) eqn:E; cbn;
      [ replace (0 <=? wdt_fd w) with true by lia
      | replace (0 <=? wdt_fd w) with false by lia ];
      repeat (wd_case; cbn); wd_finish; wd_trace; rewrite <- ?app_assoc;
      first [reflexivity | symmetry; apply app_nil_r].
  - wd_run; wd_finish; wd_trace; rewrite <- ?app_assoc;
      first [reflexivity | symmetry; apply app_nil_r].
  - wd_run; wd_finish; wd_trace; rewrite <- ?app_assoc;
      first [reflexivity | symmetry; apply app_nil_r].
Qed.

Lemma run_ops_quiet (ps : list op) (w : world) :
  wdt_timeout_pending w = false ->
  forallb (fun p => negb (starts_tick (wdt_fd w) p)) ps = true ->
  let w' := run_ops o ps w in
  wdt_timeout_pending w' = false /\
  wdte_failures w' = wdte_failures w /\
  wdte_cycle w' = wdte_cycle w /\
  wdt_fd w' = wdt_fd w /\
  trace w' = trace w ++ events_since w w' /\
  existsb is_timeout_set (events_since w w') = false /\
  length (filter is_write (events_since w w')) =
    (if 0 <=? wdt_fd w then length (filter is_ping ps) else 0%nat).
Proof.
  revert w. induction ps as [|p ps IH]; intros w Hp Hs; cbn.
  - assert (E : events_since w w = []) by (apply events_since_intro; symmetry; apply app_nil_r).
    rewrite E. cbn. rewrite app_nil_r.
    destruct (0 <=? wdt_fd w); repeat split; try reflexivity; assumption.
  - cbn in Hs. apply andb_true_iff in Hs. destruct Hs as [Hs1 Hs2].
    apply negb_true_iff in Hs1.
    destruct (run_op_quiet p w Hp Hs1) as (Qp & Qf & Qc & Qd & Qt & Qs & Qw).
    destruct (IH (run_op o p w) Qp) as (Rp & Rf & Rc & Rd & Rt & Rs & Rw).
    { rewrite Qd. exact Hs2. }
    assert (E : events_since w (run_ops o ps (run_op o p w)) =
                events_since w (run_op o p w) ++
                events_since (run_op o p w) (run_ops o ps (run_op o p w))).
    { apply events_since_intro. rewrite Rt, Qt at 1. rewrite <- app_assoc. reflexivity. }
    rewrite E, existsb_app, filter_app, length_app, Qs, Rs, Qw, Rw, Qd.
    repeat split; try congruence.
    + rewrite Rt, Qt at 1. rewrite <- app_assoc. reflexivity.
    + destruct (0 <=? wdt_fd w), (is_ping p); reflexivity.
Qed.

End Runs.

(** C2 does not hold as stated: the probe asks for a restart on tick 12,
    which stops the timer with the counter at 15; twelve resume requests
    later the probe runs again, exits with code 1, and the counter is 16. *)
Lemma failures_exceed_threshold :
  let o := extern_probe (probe_restart_then 1) 3 in
  let ps := OpInit 0 :: repeat OpTick 11 ++ repeat (OpSetStopped false) 12 in
  wdte_failures (run_ops o ps (initial_world None)) = 16 /\
  ~ (0 <= wdte_failures (run_ops o ps (initial_world None))
     <= WDTE_FAILURES_THRESHOLD).
Proof. vm_compute. split; [reflexivity | intros [_ H]; apply H; reflexivity]. Qed.

(** C2, amended. After every run of operations from the initial globals,
    [wdte_cycle] is in [0, WDTE_FREQUENCY); and [wdte_failures] is in
    [0, WDTE_FAILURES_THRESHOLD] after every run in which each resume
    request is made while the counter is below the threshold. *)
Theorem counters_invariant (o : extern) (env : option string) (ps : list op) :
  let w := run_ops o ps (initial_world env) in
  0 <= wdte_cycle w < WDTE_FREQUENCY /\
  (guarded o ps (initial_world env) ->
   0 <= wdte_failures w <= WDTE_FAILURES_THRESHOLD).
Proof.
  cbn. split.
  - apply run_ops_cycle. cbn. unfold WDTE_FREQUENCY. lia.
  - intros Hg.
    assert (Hs : steady (initial_world env)).
    { unfold steady, WDTE_FREQUENCY, WDTE_FAILURES_THRESHOLD. cbn.
      repeat split; try lia; discriminate. }
    destruct (run_ops_steady o ps _ Hs Hg) as (_ & Hf & _). exact Hf.
Qed.

Lemma counters_invariant_witness :
  guarded (extern_probe (probe_always 1) 3)
    [OpInit 0; OpTick; OpSetStopped false] (initial_world None) /\
  0 <= wdte_failures
         (run_ops (extern_probe (probe_always 1) 3)
            [OpInit 0; OpTick; OpSetStopped false] (initial_world None))
    <= WDTE_FAILURES_THRESHOLD.
Proof.
  assert (Hg : guarded (extern_probe (probe_always 1) 3)
                 [OpInit 0; OpTick; OpSetStopped false] (initial_world None)).
  { cbn. repeat split; intros; try discriminate; reflexivity. }
  split; [exact Hg|].
  destruct (counters_invariant (extern_probe (probe_always 1) 3) None
              [OpInit 0; OpTick; OpSetStopped false]) as [_ H].
  exact (H Hg).
Defined.

(** C3 does not hold as stated: the counter reaches the threshold on tick
    12 and the timer stops; on the twelfth resume request the probe exits
    with code 0, the counter is cleared, the device is written to and the
    timer is set again. *)
Lemma resume_rearms_after_threshold :
  let o := extern_probe (probe_restart_then 0) 3 in
  let w := run_ops o (OpInit 0 :: repeat OpTick 11) (initial_world None) in
  let w' := run_ops o (repeat (OpSetStopped false) 12) w in
  wdte_failures w = WDTE_FAILURES_THRESHOLD /\
  wdt_timeout_pending w = false /\
  wdt_timeout_pending w' = true /\
  existsb is_write (events_since w w') = true /\
  existsb is_timeout_set (events_since w w') = true.
Proof. vm_compute. repeat split. Qed.

(** C3, amended. When the failure counter is at or above the threshold once
    the extended cycle of a tick has run, that tick logs the restart, cancels
    the timer and neither writes to the device nor sets the timer; and from
    there, for as long as no operation starts a tick itself (no resume
    request, no initialisation while the descriptor is absent), the timer
    stays unarmed, no timer is set, and the only writes to the device are
    those of explicit pings. *)
Theorem stopped_until_resumed (o : extern) (w : world) (ps : list op) :
  WDTE_FAILURES_THRESHOLD <= wdte_failures (exec (watchdog_extended o) w) ->
  let e := exec (watchdog_extended o) w in
  let w1 := exec (watchdog_timeout_cb o) w in
  let w' := run_ops o ps w1 in
  (events_since e w1 = [EvError MsgRestarting; EvTimeoutCancel] /\
   filter is_write (events_since w w1) = [] /\
   wdt_timeout_pending w1 = false /\
   wdte_failures w1 = wdte_failures e) /\
  (forallb (fun p => negb (starts_tick (wdt_fd w1) p)) ps = true ->
   wdt_timeout_pending w' = false /\
   wdte_failures w' = wdte_failures w1 /\
   existsb is_timeout_set (events_since w1 w') = false /\
   length (filter is_write (events_since w1 w')) =
     (if 0 <=? wdt_fd w1 then length (filter is_ping ps) else 0%nat)).
Proof.
  intros Hth e w1 w'. subst e w1 w'.
  assert (H1 : events_since (exec (watchdog_extended o) w)
                 (exec (watchdog_timeout_cb o) w)
               = [EvError MsgRestarting; EvTimeoutCancel] /\
               filter is_write (events_since w (exec (watchdog_timeout_cb o) w)) = [] /\
               wdt_timeout_pending (exec (watchdog_timeout_cb o) w) = false /\
               wdte_failures (exec (watchdog_timeout_cb o) w) =
               wdte_failures (exec (watchdog_extended o) w)).
  { revert Hth. wd_unfold. cbn.
    repeat (wd_case; cbn); intros Hth; wd_finish. }
  split; [exact H1|].
  intros Hq. destruct H1 as (_ & _ & Hp & _).
  destruct (run_ops_quiet o ps _ Hp Hq) as (Rp & Rf & _ & _ & _ & Rs & Rw).
  repeat split; assumption.
Qed.

Lemma stopped_until_resumed_witness :
  WDTE_FAILURES_THRESHOLD <=
    wdte_failures (exec (watchdog_extended (extern_probe (probe_always 1) 3))
                     (example_world 3 14 11 true)) /\
  wdt_timeout_pending
    (run_ops (extern_probe (probe_always 1) 3)
       [OpTick; OpPing; OpSetStopped true; OpInit 0; OpTimeout 10]
       (exec (watchdog_timeout_cb (extern_probe (probe_always 1) 3))
          (example_world 3 14 11 true))) = false.
Proof.
  assert (H : WDTE_FAILURES_THRESHOLD <=
    wdte_failures (exec (watchdog_extended (extern_probe (probe_always 1) 3))
                     (example_world 3 14 11 true)))
    by (vm_compute; discriminate).
  split; [exact H|].
  destruct (stopped_until_resumed (extern_probe (probe_always 1) 3)
              (example_world 3 14 11 true)
              [OpTick; OpPing; OpSetStopped true; OpInit 0; OpTimeout 10] H)
    as [_ Hq].
  apply Hq. reflexivity.
Defined.

(** ** Handover of the descriptor *)

Lemma atoi_snprintf_two_digits (d : Z) :
  0 <= d < 100 -> Libc.atoi (Libc.snprintf_d fd_buf_size d) = d.
Proof.
  intros H.
  assert (A : forallb (fun n => Libc.atoi (Libc.snprintf_d fd_buf_size (Z.of_nat n))
                                =? Z.of_nat n) (seq 0 100) = true)
    by (vm_compute; reflexivity).
  rewrite forallb_forall in A.
  specialize (A (Z.to_nat d)). rewrite Z2Nat.id in A by lia.
  apply Z.eqb_eq, A, in_seq. lia.
Qed.

(** A descriptor below 100 survives the handover: the new process image
    adopts the very same value, opens nothing, and clears [WDTFD]. *)
Lemma handover_roundtrip_two_digits (o : extern) (preinit : Z) (w : world) :
  0 <= wdt_fd w < 100 ->
  let w' := exec (watchdog_init o preinit) (initial_world (eval watchdog_fd w)) in
  wdt_fd w' = wdt_fd w /\ n_open w' = 0%nat /\
  existsb is_open (trace w') = false /\ env_WDTFD w' = None.
Proof.
  intros H.
  pose proof (atoi_snprintf_two_digits (wdt_fd w) H) as Ha.
  unfold initial_world. wd_unfold. cbn.
  destruct (wdt_fd w <? 0) eqn:E; [lia|]. cbn. rewrite Ha.
  repeat (wd_case; cbn); repeat split; try reflexivity; lia.
Qed.

(** C5, at a descriptor of three digits.  A handle opened as descriptor 100
    exports the text "10", and the new process image adopts descriptor 10:
    nothing is opened and [WDTFD] is cleared, but the descriptor is another
    one. *)
Theorem handover_three_digit_descriptor :
  let o := extern_probe (probe_always 0) 100 in
  let old := run_ops o [OpInit 1] (initial_world None) in
  let new := exec (watchdog_init o 0) (initial_world (eval watchdog_fd old)) in
  wdt_fd old = 100 /\
  eval watchdog_fd old = Some "10"%string /\
  wdt_fd new = 10 /\
  wdt_fd new <> wdt_fd old /\
  n_open new = 0%nat /\
  env_WDTFD new = None.
Proof. vm_compute. repeat split. discriminate. Qed.

(** ** Further properties of the code *)

(** *** The probe's exit code *)

Lemma WEXITSTATUS_range (status : Z) : 0 <= Libc.WEXITSTATUS status <= 255.
Proof.
  unfold Libc.WEXITSTATUS. rewrite Z.shiftr_land.
  change (Z.shiftr 65280 8) with (Z.ones 8).
  rewrite Z.land_ones by lia.
  pose proof (Z.mod_pos_bound (Z.shiftr status 8) (2 ^ 8) ltac:(lia)). lia.
Qed.

Lemma wait_status_of_exit (code : Z) :
  0 <= code <= 255 ->
  Z.shiftl code 8 <> -1 /\
  Libc.WIFEXITED (Z.shiftl code 8) = true /\
  Libc.WEXITSTATUS (Z.shiftl code 8) = code.
Proof.
  intros H. split; [|split].
  - rewrite Z.shiftl_mul_pow2 by lia. lia.
  - unfold Libc.WIFEXITED, Libc.WTERMSIG.
    change 127 with (Z.ones 7). rewrite Z.land_ones by lia.
    rewrite Z.shiftl_mul_pow2 by lia.
    replace (code * 2 ^ 8) with (code * 2 * 2 ^ 7) by lia.
    rewrite Z.mod_mul by lia. reflexivity.
  - unfold Libc.WEXITSTATUS. rewrite Z.shiftr_land.
    rewrite Z.shiftr_shiftl_l by lia.
    change (Z.shiftr 65280 8) with (Z.ones 8). rewrite Z.land_ones by lia.
    change (8 - 8) with 0. rewrite Z.shiftl_0_r.
    apply Z.mod_small. lia.
Qed.

(** X1. [watchdog_run_client] calls [system] exactly once and always
    returns a value in [0, 255]: 2 when [system] failed or the child did not
    exit normally, the exit code of a child that exited normally.  A child
    exiting with code 2 is thus not told apart from a probe that could not
    be run. *)
Theorem watchdog_run_client_result (o : extern) (w : world) :
  let status := system_status o (n_system w) in
  let r := eval (watchdog_run_client o) w in
  let w' := exec (watchdog_run_client o) w in
  0 <= r <= 255 /\
  events_since w w' = [EvSystem] /\
  (status = -1 \/ Libc.WIFEXITED status = false -> r = 2) /\
  (forall code : Z, 0 <= code <= 255 -> status = Z.shiftl code 8 -> r = code).
Proof.
  cbn. pose proof (WEXITSTATUS_range (system_status o (n_system w))) as Hr.
  assert (Hc : forall code, 0 <= code <= 255 ->
                 system_status o (n_system w) = Z.shiftl code 8 ->
                 eval (watchdog_run_client o) w = code).
  { intros code Hcode Hs.
    destruct (wait_status_of_exit code Hcode) as (H1 & H2 & H3).
    wd_unfold. cbn. rewrite Hs.
    destruct (Z.shiftl code 8 =? -1) eqn:E; [lia|].
    rewrite H2. cbn. exact H3. }
  split; [|split; [|split; [|exact Hc]]].
  - wd_run; lia.
  - wd_run; wd_trace; reflexivity.
  - intros [H|H]; wd_unfold; cbn; rewrite H; cbn.
    + reflexivity.
    + destruct (system_status o (n_system w) =? -1); reflexivity.
Qed.

Lemma watchdog_run_client_result_witness :
  0 <= 2 <= 255 /\
  system_status (extern_probe (probe_always 2) 3)
    (n_system (example_world 3 0 0 true)) = Z.shiftl 2 8 /\
  eval (watchdog_run_client (extern_probe (probe_always 2) 3))
    (example_world 3 0 0 true) = 2.
Proof.
  assert (H : 0 <= 2 <= 255) by lia.
  split; [exact H | split; [reflexivity|]].
  destruct (watchdog_run_client_result (extern_probe (probe_always 2) 3)
              (example_world 3 0 0 true)) as (_ & _ & _ & Hc).
  apply (Hc 2 H). reflexivity.
Defined.

(** *** The close-on-exec flag *)




(** *** Initialisation *)



(** X4. Once a descriptor is held, no run of operations replaces it, opens
    the device again or touches [WDTFD]; a further [watchdog_init] changes
    nothing at all. *)
Theorem descriptor_is_kept (o : extern) (ps : list op) (w : world) :
  0 <= wdt_fd w ->
  wdt_fd (run_ops o ps w) = wdt_fd w /\
  n_open (run_ops o ps w) = n_open w /\
  env_WDTFD (run_ops o ps w) = env_WDTFD w /\
  (forall preinit : Z, run_op o (OpInit preinit) w = w).
Proof.
  intros H. split; [|split; [|split]].
  4: { intros preinit. wd_unfold. cbn.
       destruct (wdt_fd w >=? 0) eqn:E; [reflexivity | lia]. }
  all: revert w H; induction ps as [|p ps IH]; intros w H; cbn; try reflexivity.
  all: assert (S1 : wdt_fd (run_op o p w) = wdt_fd w /\
                    n_open (run_op o p w) = n_open w /\
                    env_WDTFD (run_op o p w) = env_WDTFD w)
         by (destruct p; wd_unfold; cbn;
             (destruct (wdt_fd w >=? 0) eqn:E; [|lia]); cbn;
             repeat (wd_case; cbn); repeat split; reflexivity).
  all: destruct S1 as (S1 & S2 & S3).
  all: rewrite IH by (rewrite S1; exact H); assumption.
Qed.

Lemma descriptor_is_kept_witness :
  0 <= wdt_fd (example_world 3 0 11 true) /\
  wdt_fd (run_ops (extern_probe (probe_always 1) 4)
            [OpTick; OpInit 0; OpSetStopped false; OpNoCloexec]
            (example_world 3 0 11 true)) = 3.
Proof.
  assert (H : 0 <= wdt_fd (example_world 3 0 11 true)) by (vm_compute; discriminate).
  split; [exact H|].
  destruct (descriptor_is_kept (extern_probe (probe_always 1) 4)
              [OpTick; OpInit 0; OpSetStopped false; OpNoCloexec]
              (example_world 3 0 11 true) H) as [Hfd _].
  rewrite Hfd. reflexivity.
Defined.

(** *** The timer *)

Lemma run_op_armed_below_threshold (o : extern) (p : op) (w : world) :
  armed_below_threshold w -> armed_below_threshold (run_op o p w).
Proof.
  unfold armed_below_threshold. intros Hw.
  destruct p; wd_unfold; cbn;
    repeat (wd_case; cbn); intros; try lia; try congruence; auto.
Qed.

(** X5. Whatever is done to the subsystem, resume requests included, the
    timer is never left armed with the failure counter at or above the
    threshold. *)
Theorem timer_armed_only_below_threshold (o : extern) (ps : list op) (w : world) :
  armed_below_threshold w -> armed_below_threshold (run_ops o ps w).
Proof.
  revert w. induction ps as [|p ps IH]; intros w H; cbn.
  - exact H.
  - apply IH, run_op_armed_below_threshold, H.
Qed.

Lemma timer_armed_only_below_threshold_witness :
  armed_below_threshold (initial_world None) /\
  armed_below_threshold
    (run_ops (extern_probe (probe_restart_then 1) 3)
       (OpInit 0 :: repeat OpTick 11 ++ repeat (OpSetStopped false) 12)
       (initial_world None)).
Proof.
  assert (H : armed_below_threshold (initial_world None))
    by (intros E; discriminate E).
  split; [exact H|].
  exact (timer_armed_only_below_threshold (extern_probe (probe_restart_then 1) 3)
           (OpInit 0 :: repeat OpTick 11 ++ repeat (OpSetStopped false) 12)
           (initial_world None) H).
Defined.

(** X6. A tick whose extended cycle leaves the failure counter below the
    threshold writes once to the descriptor, if one is held, and then sets
    the timer to [wdt_frequency * 1000] ms; a failed write is logged and
    the timer is set all the same.  The product is a C [int]: it is the
    exact number of milliseconds for intervals up to 2147483 seconds. *)
Theorem armed_tick_pings_and_rearms (o : extern) (w : world) :
  wdte_failures (exec (watchdog_extended o) w) < WDTE_FAILURES_THRESHOLD ->
  let e := exec (watchdog_extended o) w in
  let w' := exec (watchdog_timeout_cb o) w in
  wdt_timeout_pending w' = true /\
  events_since e w' =
    (if 0 <=? wdt_fd w
     then EvWrite (wdt_fd w) ::
          (if write_ret o (n_write w) <? 0 then [EvError MsgWriteFailed] else [])
     else [])
    ++ [EvTimeoutSet (CInt.wrap (wdt_frequency w * 1000))] /\
  (-2147483 <= wdt_frequency w <= 2147483 ->
   CInt.wrap (wdt_frequency w * 1000) = wdt_frequency w * 1000).
Proof.
  intros H e w'. subst e w'. split; [|split].
  - revert H. wd_run; intros; try reflexivity; lia.
  - revert H. wd_unfold. cbn.
    replace (0 <=? wdt_fd w) with (wdt_fd w >=? 0)
      by (destruct (wdt_fd w >=? 0) eqn:E; symmetry; lia).
    repeat (wd_case; cbn); intros; try lia; wd_trace; reflexivity.
  - intros Hf. apply wrap_in_range.
    unfold CInt.in_range, CInt.INT_MIN, CInt.INT_MAX. lia.
Qed.

Lemma armed_tick_pings_and_rearms_witness :
  wdte_failures (exec (watchdog_extended (extern_probe (probe_always 1) 3))
                   (example_world 3 13 11 true)) < WDTE_FAILURES_THRESHOLD /\
  wdt_timeout_pending
    (exec (watchdog_timeout_cb (extern_probe (probe_always 1) 3))
       (example_world 3 13 11 true)) = true.
Proof.
  assert (H : wdte_failures (exec (watchdog_extended (extern_probe (probe_always 1) 3))
                               (example_world 3 13 11 true)) < WDTE_FAILURES_THRESHOLD)
    by reflexivity.
  split; [exact H|].
  destruct (armed_tick_pings_and_rearms (extern_probe (probe_always 1) 3)
              (example_world 3 13 11 true) H) as [Hp _].
  exact Hp.
Defined.

(** X7. A probe that exits with the restart code stops the timer on that
    very tick, whatever the failure counter was: the counter becomes the
    threshold, both messages are logged, the timer is cancelled and the
    device is not written to. *)
Theorem restart_code_stops_at_once (o : extern) (w : world) :
  wdte_cycle w = WDTE_FREQUENCY - 1 ->
  restart_request (system_status o (n_system w)) ->
  let w' := exec (watchdog_timeout_cb o) w in
  wdte_failures w' = WDTE_FAILURES_THRESHOLD /\
  wdte_cycle w' = 0 /\
  wdt_timeout_pending w' = false /\
  events_since w w' =
    [EvSystem; EvError MsgRestartCode; EvError MsgRestarting; EvTimeoutCancel].
Proof.
  unfold restart_request, WDTE_FREQUENCY, WATCHDOG_CLIENT_RESTART_CODE.
  intros Hc (H1 & H2 & H3). wd_unfold. cbn. rewrite Hc.
  change (CInt.wrap (12 - 1 + 1)) with 12. cbn.
  destruct (system_status o (n_system w) =? -1) eqn:E; [lia|].
  rewrite H2. cbn. rewrite H3. cbn.
  repeat split. wd_trace. reflexivity.
Qed.

Lemma restart_code_stops_at_once_witness :
  wdte_cycle (example_world 3 0 11 true) = WDTE_FREQUENCY - 1 /\
  restart_request
    (system_status (extern_probe (probe_always 64) 3)
       (n_system (example_world 3 0 11 true))) /\
  wdt_timeout_pending
    (exec (watchdog_timeout_cb (extern_probe (probe_always 64) 3))
       (example_world 3 0 11 true)) = false.
Proof.
  assert (Hc : wdte_cycle (example_world 3 0 11 true) = WDTE_FREQUENCY - 1)
    by reflexivity.
  assert (Hr : restart_request
                 (system_status (extern_probe (probe_always 64) 3)
                    (n_system (example_world 3 0 11 true))))
    by (vm_compute; repeat split; discriminate).
  split; [exact Hc | split; [exact Hr|]].
  destruct (restart_code_stops_at_once (extern_probe (probe_always 64) 3)
              (example_world 3 0 11 true) Hc Hr) as (_ & _ & Hp & _).
  exact Hp.
Defined.

(** *** Interval and timeout *)

(** X8. With a descriptor held, an interval set with a nonzero argument is
    what the getter then returns, and what the next armed tick multiplies
    by 1000 for the timer. *)
Theorem frequency_set_then_used (o : extern) (w : world) (seconds : Z) :
  0 <= wdt_fd w -> seconds <> 0 ->
  let w1 := exec (watchdog_frequency seconds) w in
  eval (watchdog_frequency 0) w1 = seconds /\
  (wdte_failures (exec (watchdog_extended o) w1) < WDTE_FAILURES_THRESHOLD ->
   filter is_timeout_set (events_since w1 (exec (watchdog_timeout_cb o) w1)) =
   [EvTimeoutSet (CInt.wrap (seconds * 1000))]).
Proof.
  intros Hfd Hs. cbn. split.
  - wd_unfold. cbn.
    destruct (wdt_fd w <? 0) eqn:E; [lia|]. cbn.
    destruct (seconds =? 0) eqn:E0; [lia|]. cbn. rewrite E. cbn. reflexivity.
  - wd_unfold. cbn.
    destruct (wdt_fd w <? 0) eqn:E; [lia|]. cbn.
    destruct (seconds =? 0) eqn:E0; [lia|]. cbn.
    repeat (wd_case; cbn); intros; try lia; wd_trace; reflexivity.
Qed.

Lemma frequency_set_then_used_witness :
  0 <= wdt_fd (example_world 3 0 0 true) /\ 7 <> 0 /\
  eval (watchdog_frequency 0)
    (exec (watchdog_frequency 7) (example_world 3 0 0 true)) = 7.
Proof.
  assert (H : 0 <= wdt_fd (example_world 3 0 0 true)) by (vm_compute; discriminate).
  assert (H7 : 7 <> 0) by discriminate.
  split; [exact H | split; [exact H7|]].
  destruct (frequency_set_then_used (extern_probe (probe_always 0) 3)
              (example_world 3 0 0 true) 7 H H7) as [Hr _].
  exact Hr.
Defined.

(** X9. When the get-timeout query fails, [watchdog_timeout] returns what
    is left in its argument: 0 for a plain query, and for a nonzero
    argument the value the set-timeout request stored, or the argument
    itself when that request failed too. *)
Theorem watchdog_timeout_query_failure (o : extern) (w : world) (seconds : Z) :
  0 <= wdt_fd w ->
  ioctl_gettimeout o (if seconds =? 0 then n_ioctl w else S (n_ioctl w)) = None ->
  eval (watchdog_timeout o seconds) w =
  (if seconds =? 0 then 0
   else match ioctl_settimeout o (n_ioctl w) seconds with
        | Some v => v
        | None => seconds
        end).
Proof.
  intros Hfd Hq. wd_unfold. cbn.
  destruct (wdt_fd w <? 0) eqn:E; [lia|]. cbn.
  destruct (seconds =? 0) eqn:E0; cbn; rewrite Hq.
  - lia.
  - reflexivity.
Qed.

Lemma watchdog_timeout_query_failure_witness :
  0 <= wdt_fd (example_world 3 0 0 true) /\
  ioctl_gettimeout (extern_no_driver 3)
    (if 30 =? 0 then n_ioctl (example_world 3 0 0 true)
     else S (n_ioctl (example_world 3 0 0 true))) = None /\
  eval (watchdog_timeout (extern_no_driver 3) 30) (example_world 3 0 0 true) = 30.
Proof.
  assert (H : 0 <= wdt_fd (example_world 3 0 0 true)) by (vm_compute; discriminate).
  assert (Hq : ioctl_gettimeout (extern_no_driver 3)
                 (if 30 =? 0 then n_ioctl (example_world 3 0 0 true)
                  else S (n_ioctl (example_world 3 0 0 true))) = None)
    by reflexivity.
  split; [exact H | split; [exact Hq|]].
  exact (watchdog_timeout_query_failure (extern_no_driver 3)
           (example_world 3 0 0 true) 30 H Hq).
Defined.

(** *** Long runs of ticks *)

Section Scenarios.

Variable o : extern.

Lemma timeout_cb_idle_armed (w : world) :
  0 <= wdte_cycle w < WDTE_FREQUENCY - 1 ->
  wdte_failures w < WDTE_FAILURES_THRESHOLD ->
  let w' := exec (watchdog_timeout_cb o) w in
  wdte_cycle w' = wdte_cycle w + 1 /\
  wdte_failures w' = wdte_failures w /\
  wdt_timeout_pending w' = true.
Proof.
  unfold WDTE_FREQUENCY, WDTE_FAILURES_THRESHOLD. intros Hc Hf.
  pose proof (wrap_small (wdte_cycle w + 1) ltac:(lia)) as Hw.
  wd_unfold. cbn. rewrite Hw.
  destruct (wdte_cycle w + 1 >=? 12) eqn:E; [lia|]. cbn.
  destruct (wdte_failures w >=? 15) eqn:E1; [lia|]. cbn.
  repeat (wd_case; cbn); repeat split; reflexivity.
Qed.

Lemma timeout_cb_generic_failure (w : world) :
  generic_failure (system_status o (n_system w)) ->
  wdte_cycle w = WDTE_FREQUENCY - 1 ->
  0 <= wdte_failures w < WDTE_FAILURES_THRESHOLD ->
  let w' := exec (watchdog_timeout_cb o) w in
  wdte_cycle w' = 0 /\
  wdte_failures w' = wdte_failures w + 1 /\
  wdt_timeout_pending w' = (wdte_failures w + 1 <? WDTE_FAILURES_THRESHOLD).
Proof.
  unfold generic_failure, WDTE_FREQUENCY, WDTE_FAILURES_THRESHOLD,
    WATCHDOG_CLIENT_RESTART_CODE.
  intros Hg Hc Hf.
  pose proof (wrap_small (wdte_failures w + 1) ltac:(lia)) as Hv.
  wd_unfold. cbn. rewrite Hc.
  change (CInt.wrap (12 - 1 + 1)) with 12. cbn.
  destruct (system_status o (n_system w) =? -1) eqn:E1; cbn;
    [| destruct (Libc.WIFEXITED (system_status o (n_system w))) eqn:E2; cbn;
       [ destruct (Libc.WEXITSTATUS (system_status o (n_system w)) =? 0) eqn:E3; cbn;
         [| destruct (Libc.WEXITSTATUS (system_status o (n_system w)) =? 64) eqn:E4; cbn ]
       |] ];
    rewrite ?Hv;
    try (exfalso; destruct Hg as [Hg|[Hg|[Hg1 Hg2]]]; try lia; congruence);
    (destruct (wdte_failures w + 1 >=? 15) eqn:E5; cbn;
     [ replace (wdte_failures w + 1 <? 15) with false by lia
     | replace (wdte_failures w + 1 <? 15) with true by lia ]);
    repeat (wd_case; cbn); repeat split; reflexivity.
Qed.

Lemma timeout_cb_healthy (w : world) :
  healthy (system_status o (n_system w)) ->
  0 <= wdte_cycle w < WDTE_FREQUENCY ->
  wdte_failures w < WDTE_FAILURES_THRESHOLD ->
  let w' := exec (watchdog_timeout_cb o) w in
  wdt_timeout_pending w' = true /\
  (wdte_cycle w < WDTE_FREQUENCY - 1 ->
   wdte_cycle w' = wdte_cycle w + 1 /\ wdte_failures w' = wdte_failures w) /\
  (wdte_cycle w = WDTE_FREQUENCY - 1 ->
   wdte_cycle w' = 0 /\ wdte_failures w' = 0).
Proof.
  unfold healthy, WDTE_FREQUENCY, WDTE_FAILURES_THRESHOLD.
  intros (H1 & H2 & H3) Hc Hf.
  pose proof (wrap_small (wdte_cycle w + 1) ltac:(lia)) as Hw.
  wd_unfold. cbn. rewrite Hw.
  destruct (wdte_cycle w + 1 >=? 12) eqn:E; cbn.
  - destruct (system_status o (n_system w) =? -1) eqn:E1; [lia|].
    rewrite H2. cbn. rewrite H3. cbn.
    repeat (wd_case; cbn); repeat split; intros; try reflexivity; lia.
  - destruct (wdte_failures w >=? 15) eqn:E1; [lia|]. cbn.
    repeat (wd_case; cbn); repeat split; intros; try reflexivity; lia.
Qed.

Lemma ticks_generic_failures (w : world) (n : nat) :
  (forall k : nat, generic_failure (system_status o k)) ->
  wdte_cycle w = 0 -> wdte_failures w = 0 ->
  (n <= 180)%nat ->
  wdte_cycle (ticks o n w) = Z.of_nat (n mod 12) /\
  wdte_failures (ticks o n w) = Z.of_nat (n / 12) /\
  ((1 <= n)%nat -> wdt_timeout_pending (ticks o n w) = (n <? 180)%nat).
Proof.
  intros Hg Hc0 Hf0. induction n as [|n IH]; intros Hn.
  - cbn. rewrite Hc0, Hf0. repeat split; intros; lia.
  - destruct IH as (Ic & If & _); [lia|].
    pose proof (Nat.div_mod_eq n 12) as Hdm.
    pose proof (Nat.mod_upper_bound n 12 ltac:(lia)) as Hb.
    destruct (succ_divmod_12 n) as [A B].
    rewrite ticks_S.
    destruct (Nat.eq_dec (n mod 12) 11) as [E|E].
    + destruct (A E) as [Hm Hd].
      destruct (timeout_cb_generic_failure (ticks o n w) (Hg _)) as (Hc & Hf & Hp).
      { rewrite Ic, E. reflexivity. }
      { rewrite If. unfold WDTE_FAILURES_THRESHOLD. lia. }
      rewrite Hc, Hf, Hp, If, Hm, Hd. unfold WDTE_FAILURES_THRESHOLD.
      repeat split; try lia. intros _.
      destruct (Nat.ltb_spec (S n) 180); lia.
    + destruct (B E) as [Hm Hd].
      destruct (timeout_cb_idle_armed (ticks o n w)) as (Hc & Hf & Hp).
      { rewrite Ic. unfold WDTE_FREQUENCY. lia. }
      { rewrite If. unfold WDTE_FAILURES_THRESHOLD. lia. }
      rewrite Hc, Hf, Hp, If, Ic, Hm, Hd.
      repeat split; try lia. intros _.
      destruct (Nat.ltb_spec (S n) 180); [reflexivity | lia].
Qed.

Lemma ticks_healthy (w : world) (n : nat) :
  (forall k : nat, healthy (system_status o k)) ->
  0 <= wdte_cycle w < WDTE_FREQUENCY ->
  wdte_failures w < WDTE_FAILURES_THRESHOLD ->
  0 <= wdte_cycle (ticks o n w) < WDTE_FREQUENCY /\
  wdte_failures (ticks o n w) < WDTE_FAILURES_THRESHOLD /\
  (wdte_failures (ticks o n w) = 0 \/
   wdte_cycle (ticks o n w) = wdte_cycle w + Z.of_nat n) /\
  ((1 <= n)%nat -> wdt_timeout_pending (ticks o n w) = true).
Proof.
  intros Hh Hc0 Hf0. induction n as [|n (Ic & If & Iz & _)].
  - cbn. repeat split; intros; lia.
  - rewrite ticks_S.
    destruct (timeout_cb_healthy (ticks o n w) (Hh _) Ic If) as (Hp & Hi & Hr).
    unfold WDTE_FREQUENCY, WDTE_FAILURES_THRESHOLD in *.
    destruct (Z.eq_dec (wdte_cycle (ticks o n w)) 11) as [E|E].
    + destruct (Hr ltac:(lia)) as [Hc Hf]. rewrite Hc, Hf.
      repeat split; try lia. intros _. exact Hp.
    + destruct (Hi ltac:(lia)) as [Hc Hf]. rewrite Hc, Hf.
      repeat split; try lia. intros _. exact Hp.
Qed.

End Scenarios.

(** X10. With a probe that fails every time (could not be run, or any exit
    code other than 0 and 64), starting from cleared counters: after n
    ticks, n up to 180, the failure counter is n / 12, and the timer is
    armed after each of the first 179 ticks and unarmed after the 180th,
    the tick on which the counter reaches the threshold of 15. *)
Theorem failing_probe_stops_at_tick_180 (o : extern) (w : world) (n : nat) :
  (forall k : nat, generic_failure (system_status o k)) ->
  wdte_cycle w = 0 -> wdte_failures w = 0 ->
  (1 <= n <= 180)%nat ->
  wdte_failures (ticks o n w) = Z.of_nat (n / 12) /\
  wdt_timeout_pending (ticks o n w) = (n <? 180)%nat.
Proof.
  intros Hg Hc Hf Hn.
  destruct (ticks_generic_failures o w n Hg Hc Hf ltac:(lia)) as (_ & H1 & H2).
  split; [exact H1 | apply H2; lia].
Qed.

Lemma failing_probe_stops_at_tick_180_witness :
  (forall k : nat,
     generic_failure (system_status (extern_probe (probe_always 1) 3) k)) /\
  wdte_cycle (initial_world None) = 0 /\
  wdte_failures (initial_world None) = 0 /\
  (1 <= 180 <= 180)%nat /\
  wdte_failures (ticks (extern_probe (probe_always 1) 3) 180 (initial_world None))
    = 15 /\
  wdt_timeout_pending
    (ticks (extern_probe (probe_always 1) 3) 180 (initial_world None)) = false.
Proof.
  assert (Hg : forall k : nat,
             generic_failure (system_status (extern_probe (probe_always 1) 3) k)).
  { intros k. right. right. vm_compute. split; discriminate. }
  assert (Hn : (1 <= 180 <= 180)%nat) by lia.
  split; [exact Hg | split; [reflexivity | split; [reflexivity | split; [exact Hn|]]]].
  exact (failing_probe_stops_at_tick_180 (extern_probe (probe_always 1) 3)
           (initial_world None) 180 Hg eq_refl eq_refl Hn).
Defined.

(** X11. With a probe that exits with code 0 every time, from any state
    whose failure counter is below the threshold, every tick leaves the
    timer armed and the counter below the threshold, and from the twelfth
    tick on the counter is 0. *)
Theorem healthy_probe_keeps_timer_armed (o : extern) (w : world) (n : nat) :
  (forall k : nat, healthy (system_status o k)) ->
  0 <= wdte_cycle w < WDTE_FREQUENCY ->
  wdte_failures w < WDTE_FAILURES_THRESHOLD ->
  (1 <= n)%nat ->
  wdt_timeout_pending (ticks o n w) = true /\
  wdte_failures (ticks o n w) < WDTE_FAILURES_THRESHOLD /\
  ((12 <= n)%nat -> wdte_failures (ticks o n w) = 0).
Proof.
  intros Hh Hc Hf Hn.
  destruct (ticks_healthy o w n Hh Hc Hf) as (Ic & If & Iz & Ip).
  split; [apply Ip, Hn | split; [exact If|]].
  intros H12. unfold WDTE_FREQUENCY in *. destruct Iz as [Iz|Iz]; [exact Iz | lia].
Qed.

Lemma healthy_probe_keeps_timer_armed_witness :
  (forall k : nat, healthy (system_status (extern_probe (probe_always 0) 3) k)) /\
  0 <= wdte_cycle (example_world 3 14 5 true) < WDTE_FREQUENCY /\
  wdte_failures (example_world 3 14 5 true) < WDTE_FAILURES_THRESHOLD /\
  (1 <= 12)%nat /\
  wdte_failures
    (ticks (extern_probe (probe_always 0) 3) 12 (example_world 3 14 5 true)) = 0.
Proof.
  assert (Hh : forall k : nat,
             healthy (system_status (extern_probe (probe_always 0) 3) k)).
  { intros k. vm_compute. repeat split. discriminate. }
  assert (Hc : 0 <= wdte_cycle (example_world 3 14 5 true) < WDTE_FREQUENCY)
    by (vm_compute; split; [discriminate | reflexivity]).
  assert (Hf : wdte_failures (example_world 3 14 5 true) < WDTE_FAILURES_THRESHOLD)
    by reflexivity.
  assert (Hn : (1 <= 12)%nat) by lia.
  split; [exact Hh | split; [exact Hc | split; [exact Hf | split; [exact Hn|]]]].
  destruct (healthy_probe_keeps_timer_armed (extern_probe (probe_always 0) 3)
              (example_world 3 14 5 true) 12 Hh Hc Hf Hn) as (_ & _ & H0).
  apply H0. lia.
Defined.

(** *** The exported descriptor text *)

Lemma digit_of_range (c : ascii) (d : Z) :
  Libc.digit_of c = Some d -> 0 <= d <= 9.
Proof.
  unfold Libc.digit_of.
  destruct ((48 <=? Z.of_nat (nat_of_ascii c)) && (Z.of_nat (nat_of_ascii c) <=? 57))
    eqn:E; [|discriminate].
  intros [= <-]. apply andb_true_iff in E. lia.
Qed.

Lemma atoi_digit_head (c : ascii) (s : string) :
  Libc.digit_of c <> None ->
  Libc.atoi (String c s) = CInt.wrap (Libc.atoi_digits 0 (String c s)).
Proof.
  intros H.
  destruct c as [[|] [|] [|] [|] [|] [|] [|] [|]];
    try (exfalso; apply H; reflexivity); reflexivity.
Qed.

Lemma all_digits_string_of_uint (u : Decimal.uint) :
  all_digits (NilEmpty.string_of_uint u) = true.
Proof. induction u; cbn; auto. Qed.

Lemma all_digits_snprintf (d : Z) :
  0 <= d -> all_digits (NilZero.string_of_int (Z.to_int d)) = true.
Proof.
  intros H. destruct d as [|p|p]; [reflexivity | | lia].
  cbn. unfold NilZero.string_of_uint.
  pose proof (all_digits_string_of_uint (Pos.to_uint p)) as A.
  destruct (Pos.to_uint p); try exact A; reflexivity.
Qed.

Lemma atoi_two_digits (s : string) :
  all_digits s = true -> 0 <= Libc.atoi (substring 0 2 s) <= 99.
Proof.
  intros H.
  destruct s as [|c1 s]; [vm_compute; split; discriminate|].
  cbn in H. destruct (Libc.digit_of c1) as [d1|] eqn:E1; [|discriminate].
  pose proof (digit_of_range c1 d1 E1) as R1.
  destruct s as [|c2 s].
  - cbn [substring]. rewrite atoi_digit_head by congruence.
    cbn [Libc.atoi_digits]. rewrite E1.
    rewrite wrap_small by lia. lia.
  - cbn in H. destruct (Libc.digit_of c2) as [d2|] eqn:E2; [|discriminate].
    pose proof (digit_of_range c2 d2 E2) as R2.
    replace (substring 0 2 (String c1 (String c2 s)))
      with (String c1 (String c2 EmptyString))
      by (destruct s; reflexivity).
    rewrite atoi_digit_head by congruence.
    cbn [Libc.atoi_digits]. rewrite E1, E2.
    rewrite wrap_small by lia. lia.
Qed.

Lemma handover_adopts (o : extern) (preinit : Z) (old : world) :
  0 <= wdt_fd old ->
  wdt_fd (handover o preinit old) =
    Libc.atoi (Libc.snprintf_d fd_buf_size (wdt_fd old)) /\
  n_open (handover o preinit old) = 0%nat /\
  env_WDTFD (handover o preinit old) = None.
Proof.
  intros H. unfold handover, initial_world. wd_unfold. cbn.
  destruct (wdt_fd old <? 0) eqn:E; [lia|]. cbn.
  repeat (wd_case; cbn); repeat split; reflexivity.
Qed.

(** X12. The handover of a descriptor below 100 is exact: the new process
    image, initialised with what [watchdog_fd] returned in [WDTFD], holds
    the same descriptor, has opened nothing, and has cleared [WDTFD]. *)
Theorem handover_exact_below_100 (o : extern) (preinit : Z) (old : world) :
  0 <= wdt_fd old < 100 ->
  wdt_fd (handover o preinit old) = wdt_fd old /\
  n_open (handover o preinit old) = 0%nat /\
  env_WDTFD (handover o preinit old) = None.
Proof.
  intros H.
  destruct (handover_adopts o preinit old ltac:(lia)) as (Hfd & Hn & He).
  rewrite Hfd, atoi_snprintf_two_digits by exact H.
  repeat split; assumption.
Qed.

Lemma handover_exact_below_100_witness :
  0 <= wdt_fd (example_world 42 0 0 true) < 100 /\
  wdt_fd (handover (extern_probe (probe_always 0) 3) 0
            (example_world 42 0 0 true)) = 42.
Proof.
  assert (H : 0 <= wdt_fd (example_world 42 0 0 true) < 100)
    by (vm_compute; split; [discriminate | reflexivity]).
  split; [exact H|].
  destruct (handover_exact_below_100 (extern_probe (probe_always 0) 3) 0
              (example_world 42 0 0 true) H) as [Hfd _].
  rewrite Hfd. reflexivity.
Defined.

(** X13. Whatever descriptor is held, the text [watchdog_fd] returns has at
    most two characters, so the descriptor a handover adopts is in
    [0, 99]: a descriptor of 100 or more is never handed over as
    itself. *)
Theorem handover_adopts_below_100 (o : extern) (preinit : Z) (old : world) :
  0 <= wdt_fd old ->
  (exists s : string,
     eval watchdog_fd old = Some s /\ (String.length s <= 2)%nat) /\
  0 <= wdt_fd (handover o preinit old) <= 99 /\
  (100 <= wdt_fd old -> wdt_fd (handover o preinit old) <> wdt_fd old).
Proof.
  intros H.
  destruct (handover_adopts o preinit old H) as (Hfd & _ & _).
  assert (B : 0 <= Libc.atoi (Libc.snprintf_d fd_buf_size (wdt_fd old)) <= 99).
  { unfold Libc.snprintf_d, fd_buf_size. change (3 - 1)%nat with 2%nat.
    apply atoi_two_digits, all_digits_snprintf, H. }
  split; [|split].
  - exists (Libc.snprintf_d fd_buf_size (wdt_fd old)). split.
    + wd_unfold. cbn. destruct (wdt_fd old <? 0) eqn:E; [lia | reflexivity].
    + unfold Libc.snprintf_d, fd_buf_size. change (3 - 1)%nat with 2%nat.
      destruct (NilZero.string_of_int (Z.to_int (wdt_fd old))) as [|c1 [|c2 s]];
        cbn; try lia.
      destruct s; cbn; lia.
  - rewrite Hfd. exact B.
  - intros H100. rewrite Hfd. lia.
Qed.

Lemma handover_adopts_below_100_witness :
  0 <= wdt_fd (example_world 1234 0 0 true) /\
  100 <= wdt_fd (example_world 1234 0 0 true) /\
  wdt_fd (handover (extern_probe (probe_always 0) 3) 0
            (example_world 1234 0 0 true)) <> 1234.
Proof.
  assert (H : 0 <= wdt_fd (example_world 1234 0 0 true))
    by (vm_compute; discriminate).
  assert (H100 : 100 <= wdt_fd (example_world 1234 0 0 true))
    by (vm_compute; discriminate).
  split; [exact H | split; [exact H100|]].
  destruct (handover_adopts_below_100 (extern_probe (probe_always 0) 3) 0
              (example_world 1234 0 0 true) H) as (_ & _ & Hne).
  exact (Hne H100).
Defined.

(** *** Stopped and disabled *)

Lemma run_op_quiet_system (o : extern) (p : op) (w : world) :
  wdt_timeout_pending w = false ->
  starts_tick (wdt_fd w) p = false ->
  n_system (run_op o p w) = n_system w.
Proof.
  intros Hp Hs.
  destruct p as [preinit| |val| |timeout|frequency| | |]; cbn in Hs.
  - wd_unfold; cbn. destruct (wdt_fd w >=? 0) eqn:E; [reflexivity | lia].
  - wd_unfold; cbn. rewrite Hp. reflexivity.
  - destruct val; [reflexivity | discriminate].
  - reflexivity.
  - wd_run; reflexivity.
  - wd_run; reflexivity.
  - wd_run; reflexivity.
  - wd_run; reflexivity.
  - wd_run; reflexivity.
Qed.

Lemma run_ops_quiet_system (o : extern) (ps : list op) (w : world) :
  wdt_timeout_pending w = false ->
  forallb (fun p => negb (starts_tick (wdt_fd w) p)) ps = true ->
  n_system (run_ops o ps w) = n_system w.
Proof.
  revert w. induction ps as [|p ps IH]; intros w Hp Hs; cbn; [reflexivity|].
  cbn in Hs. apply andb_true_iff in Hs. destruct Hs as [Hs1 Hs2].
  apply negb_true_iff in Hs1.
  destruct (run_op_quiet o p w Hp Hs1) as (Qp & _ & _ & Qd & _).
  rewrite IH; [apply run_op_quiet_system; assumption | exact Qp |].
  rewrite Qd. exact Hs2.
Qed.

(** X14. After a stop request, for as long as no operation starts a tick
    itself, the subsystem stays stopped and frozen: timer expiries do
    nothing, [watchdog_get_stopped] answers [true], the probe is never
    run, and both counters keep the values they had. *)
Theorem stop_request_freezes (o : extern) (ps : list op) (w : world) :
  forallb (fun p => negb (starts_tick (wdt_fd w) p)) ps = true ->
  let w' := run_ops o ps (exec (watchdog_set_stopped o true) w) in
  eval watchdog_get_stopped w' = true /\
  n_system w' = n_system w /\
  wdte_cycle w' = wdte_cycle w /\
  wdte_failures w' = wdte_failures w.
Proof.
  intros Hs. cbn zeta.
  assert (Hp : wdt_timeout_pending (exec (watchdog_set_stopped o true) w) = false)
    by reflexivity.
  assert (Hs' : forallb (fun p => negb (starts_tick
                  (wdt_fd (exec (watchdog_set_stopped o true) w)) p)) ps = true)
    by exact Hs.
  destruct (run_ops_quiet o ps _ Hp Hs') as (Rp & Rf & Rc & _).
  pose proof (run_ops_quiet_system o ps _ Hp Hs') as Rn.
  repeat split.
  - change (negb (wdt_timeout_pending
                    (run_ops o ps (exec (watchdog_set_stopped o true) w))) = true).
    rewrite Rp. reflexivity.
  - rewrite Rn. reflexivity.
  - rewrite Rc. reflexivity.
  - rewrite Rf. reflexivity.
Qed.

Lemma stop_request_freezes_witness :
  forallb (fun p => negb (starts_tick (wdt_fd (example_world 3 2 11 true)) p))
    [OpTick; OpTick; OpPing; OpInit 0; OpTimeout 60] = true /\
  n_system
    (run_ops (extern_probe (probe_always 1) 3)
       [OpTick; OpTick; OpPing; OpInit 0; OpTimeout 60]
       (exec (watchdog_set_stopped (extern_probe (probe_always 1) 3) true)
          (example_world 3 2 11 true))) = 0%nat.
Proof.
  assert (H : forallb (fun p => negb (starts_tick
                 (wdt_fd (example_world 3 2 11 true)) p))
                [OpTick; OpTick; OpPing; OpInit 0; OpTimeout 60] = true)
    by reflexivity.
  split; [exact H|].
  destruct (stop_request_freezes (extern_probe (probe_always 1) 3)
              [OpTick; OpTick; OpPing; OpInit 0; OpTimeout 60]
              (example_world 3 2 11 true) H) as (_ & Hn & _).
  exact Hn.
Defined.

(** X15. Without a descriptor the reading and configuring operations are
    inert: any run of them leaves the whole world as it was, no external
    call included, and the three of them that return a value return 0, 0
    and no text. *)
Theorem disabled_handle_is_inert (o : extern) (ps : list op) (w : world) :
  wdt_fd w < 0 ->
  forallb is_config ps = true ->
  run_ops o ps w = w /\
  (forall timeout : Z, eval (watchdog_timeout o timeout) w = 0) /\
  (forall frequency : Z, eval (watchdog_frequency frequency) w = 0) /\
  eval watchdog_fd w = None.
Proof.
  intros Hfd Hc. split; [|split; [|split]].
  - induction ps as [|p ps IH]; cbn; [reflexivity|].
    cbn in Hc. apply andb_true_iff in Hc. destruct Hc as [Hc1 Hc2].
    assert (E : run_op o p w = w).
    { destruct p; try discriminate; wd_run; try reflexivity; lia. }
    rewrite E. apply IH, Hc2.
  - intros timeout. wd_run; try reflexivity; lia.
  - intros frequency. wd_run; try reflexivity; lia.
  - wd_run; try reflexivity; lia.
Qed.

Lemma disabled_handle_is_inert_witness :
  wdt_fd (initial_world None) < 0 /\
  forallb is_config [OpPing; OpTimeout 30; OpFrequency 7; OpNoCloexec; OpFd] = true /\
  run_ops (extern_probe (probe_always 0) 3)
    [OpPing; OpTimeout 30; OpFrequency 7; OpNoCloexec; OpFd]
    (initial_world None) = initial_world None.
Proof.
  assert (H : wdt_fd (initial_world None) < 0) by reflexivity.
  assert (Hc : forallb is_config
                 [OpPing; OpTimeout 30; OpFrequency 7; OpNoCloexec; OpFd] = true)
    by reflexivity.
  split; [exact H | split; [exact Hc|]].
  destruct (disabled_handle_is_inert (extern_probe (probe_always 0) 3)
              [OpPing; OpTimeout 30; OpFrequency 7; OpNoCloexec; OpFd]
              (initial_world None) H Hc) as [Hr _].
  exact Hr.
Defined.
